(** * DashTunisia: the poverty dashboard's data pipeline

    A shallow embedding of [src/poverty_dashboard/app.py]: the loader
    [load_data] with its enrichment steps, the regional summary table,
    the choropleth's renaming step and the aggregation expressions of the
    governorate and comparison pages (rank, top five, grouped statistics,
    poor-population estimate).

    Data frames are lists of rows, a row being a finite map from column
    label to value; Python floats are IEEE 754 binary64 numbers, taken
    from the Standard Library's executable specification [spec_float];
    exceptions are an error monad; the rendering step, which mutates a
    frame in place, runs over an explicit store of frame objects. *)

From Stdlib Require Import ZArith Bool List Lia SpecFloat PrimFloat FloatOps.
From Stdlib Require Import Permutation Ascii QArith Qcanon.
From stdpp Require Import base option list sorting gmap strings fin_maps.

Close Scope Qc_scope.
Close Scope Q_scope.

Set Warnings "-inexact-float,-clear-no-such-hyp".
Local Open Scope string_scope.

(** ** Binary64 floating point *)

Module F64.

Definition prec : Z := 53.
Definition emax : Z := 1024.

Abbreviation float64 := spec_float.

Definition nan : float64 := S754_nan.

(** Conversion of an integer, rounded to nearest even as [float(n)]. *)
Definition of_Z (z : Z) : float64 := binary_normalize prec emax z 0 false.

Definition add : float64 -> float64 -> float64 := SFadd prec emax.
Definition sub : float64 -> float64 -> float64 := SFsub prec emax.
Definition mul : float64 -> float64 -> float64 := SFmul prec emax.
Definition div : float64 -> float64 -> float64 := SFdiv prec emax.
Definition sqrt : float64 -> float64 := SFsqrt prec emax.

(** The decimal literal [n/d] (6.1 is [dec 61 10]): division is
    correctly rounded, so the quotient of two exact integers is the
    binary64 number nearest to the decimal, which is the literal's
    value. *)
Definition dec (n d : Z) : float64 := div (of_Z n) (of_Z d).

Definition ltb : float64 -> float64 -> bool := SFltb.
Definition leb : float64 -> float64 -> bool := SFleb.
Definition gtb (x y : float64) : bool := SFltb y x.
Definition geb (x y : float64) : bool := SFleb y x.

Definition is_nan (x : float64) : bool :=
  match x with S754_nan => true | _ => false end.

(** Magnitude of a finite float [m * 2^e], fractional bits dropped. *)
Definition trunc_mag (m : positive) (e : Z) : Z :=
  if (0 <=? e)%Z then Z.shiftl (Zpos m) e else Z.shiftr (Zpos m) (- e).

End F64.

Import F64.

(** ** Exceptions *)

Inductive exn : Type :=
  | FileNotFoundError
  | PermissionError
  | UnicodeDecodeError
  | EmptyDataError
  | ParserError
  | JSONDecodeError
  | KeyError (label : string)
  | TypeError
  | ValueError
  | OverflowError
  | IndexError.

Inductive exc (A : Type) : Type :=
  | Ok (a : A)
  | Raise (e : exn).

Arguments Ok {A} a.
Arguments Raise {A} e.

Global Instance exc_ret : MRet exc := fun A a => Ok a.

Global Instance exc_bind : MBind exc := fun A B k c =>
  match c with
  | Ok a => k a
  | Raise e => Raise e
  end.

(** [int(x)] on a float: truncation toward zero; NaN raises ValueError
    and an infinity raises OverflowError. *)
Definition int_of_float (x : float64) : exc Z :=
  match x with
  | S754_zero _ => Ok 0%Z
  | S754_finite s m e => Ok (cond_Zopp s (trunc_mag m e))
  | S754_infinity _ => Raise OverflowError
  | S754_nan => Raise ValueError
  end.

(** ** The regional summary table (app.py, lines 72-86) *)

Module region_summary.

Definition Région : list string :=
  ["Grand Tunis"; "Nord-Est"; "Nord-Ouest"; "Centre-Est"; "Centre-Ouest";
   "Sud-Est"; "Sud-Ouest"].

Definition Taux_Pauvreté : list float64 :=
  [dec 61 10; dec 119 10; dec 258 10; dec 117 10; dec 293 10; dec 178 10;
   dec 182 10].

Definition Population : list Z :=
  [2719000; 1533064; 1378596; 2580032; 1439714; 1003273; 602204]%Z.

Definition Gouvernorats : list string :=
  ["Tunis, Ariana, Ben Arous, Manouba";
   "Nabeul, Zaghouan, Bizerte";
   "Beja, Jendouba, Le Kef, Seliana";
   "Sousse, Monastir, Mahdia, Sfax";
   "Kairouan, Kasserine, Sidi Bouzid";
   "Gabes, Médenine, Tataouine";
   "Gafsa, Tozeur, Kebili"].

End region_summary.

(** A row of [df_regions]. *)
Record RegionRow : Type := mkRegionRow {
  Région : string;
  Taux_Pauvreté : float64;
  Population : Z;
  Gouvernorats : string
}.

Fixpoint region_rows (rs : list string) (ts : list float64) (ps : list Z)
    (gs : list string) : list RegionRow :=
  match rs, ts, ps, gs with
  | r :: rs', t :: ts', p :: ps', g :: gs' =>
      mkRegionRow r t p g :: region_rows rs' ts' ps' gs'
  | _, _, _, _ => []
  end.

(** [df_regions = pd.DataFrame(region_summary)] *)
Definition df_regions : list RegionRow :=
  region_rows region_summary.Région region_summary.Taux_Pauvreté
    region_summary.Population region_summary.Gouvernorats.

(** [df_regions[df_regions['Région'] == selected_region].iloc[0]] *)
Definition region_data (selected_region : string) : exc RegionRow :=
  match filter (fun r => Région r = selected_region) df_regions with
  | r :: _ => Ok r
  | [] => Raise IndexError
  end.

(** [int(region_data['Population'] * region_data['Taux_Pauvreté'] / 100)]
    (line 250): the integer column is converted to float by the product. *)
Definition poor_population (region_data : RegionRow) : exc Z :=
  int_of_float
    (div (mul (of_Z (Population region_data)) (Taux_Pauvreté region_data))
       (of_Z 100)).

(** What the spec asks for: the quotient rounded to the nearest integer.
    [round_nearest] rounds a finite float to the nearest integer, a tie
    going to the even one. *)
Definition round_nearest (x : float64) : exc Z :=
  match x with
  | S754_zero _ => Ok 0%Z
  | S754_finite s m e =>
      if (0 <=? e)%Z then Ok (cond_Zopp s (Z.shiftl (Zpos m) e))
      else
        let q := Z.shiftr (Zpos m) (- e) in
        let r := (Zpos m - Z.shiftl q (- e))%Z in
        let half := Z.shiftl 1 (- e - 1) in
        let up := orb (half <? r)%Z (andb (half =? r)%Z (Z.odd q)) in
        Ok (cond_Zopp s (if up then q + 1 else q)%Z)
  | S754_infinity _ => Raise OverflowError
  | S754_nan => Raise ValueError
  end.

Definition estimatePoorPopulation_spec (region_data : RegionRow) : exc Z :=
  round_nearest
    (div (mul (of_Z (Population region_data)) (Taux_Pauvreté region_data))
       (of_Z 100)).

(** ** Values, rows and data frames *)

(** A cell holds a string or a float; pandas' missing value is the float
    NaN. *)
Inductive value : Type :=
  | VStr (s : string)
  | VNum (x : float64).

Definition NaN : value := VNum nan.

Abbreviation row := (gmap string value).

(** A cell that a row does not carry reads as missing. *)
Definition cell (r : row) (c : string) : value := default NaN (r !! c).

Record DataFrame : Type := mkDataFrame {
  columns : list string;
  rows : list row
}.

(** [pd.DataFrame(columns=cols)] *)
Definition empty_frame (cols : list string) : DataFrame :=
  mkDataFrame cols [].

(** [df[c]]: the column as a series; an unknown label raises KeyError. *)
Definition getitem (df : DataFrame) (c : string) : exc (list value) :=
  if decide (c ∈ columns df) then Ok ((fun r => cell r c) <$> rows df)
  else Raise (KeyError c).

Definition with_column (cols : list string) (c : string) : list string :=
  if decide (c ∈ cols) then cols else cols ++ [c].

(** [df[c] = v] for a scalar [v]. *)
Definition setitem_scalar (df : DataFrame) (c : string) (v : value)
    : DataFrame :=
  mkDataFrame (with_column (columns df) c)
    ((fun r => <[c := v]> r) <$> rows df).

(** [df[c] = series] for a series of the frame's length. *)
Definition setitem (df : DataFrame) (c : string) (vs : list value)
    : exc DataFrame :=
  if decide (length vs = length (rows df)) then
    Ok (mkDataFrame (with_column (columns df) c)
          (zip_with (fun r v => <[c := v]> r) (rows df) vs))
  else Raise ValueError.

Definition rename_key (old new : string) (r : row) : row :=
  match r !! old with
  | Some v => <[new := v]> (delete old r)
  | None => r
  end.

(** [df.rename(columns={old: new}, inplace=True)]: a relabelling; a label
    that is not there is ignored. *)
Definition rename (df : DataFrame) (old new : string) : DataFrame :=
  mkDataFrame ((fun c => if decide (c = old) then new else c) <$> columns df)
    (rename_key old new <$> rows df).

(** The labels of a frame that [read_csv] returns are distinct; after
    [rename] the frame has the label [new] twice when it had both labels
    to begin with. *)
Definition relabelled_twice (df : DataFrame) (old new : string) : bool :=
  bool_decide (old ∈ columns df /\ new ∈ columns df).

(** [pd.concat([df1, df2], ignore_index=True)]: the rows of both, over
    the union of the labels in order of first appearance. Labels and
    cells only: the dtype that pandas gives a column of the result (the
    object dtype, for a column that [df1] lacks or holds no value in when
    [df2] is the empty placeholder) is not part of a frame here. *)
Definition concat (df1 df2 : DataFrame) : DataFrame :=
  mkDataFrame
    (columns df1 ++ filter (fun c => c ∉ columns df1) (columns df2))
    (rows df1 ++ rows df2).

(** [series == s] for a string [s], elementwise. *)
Definition eq_str (v : value) (s : string) : bool :=
  match v with
  | VStr t => bool_decide (t = s)
  | VNum _ => false
  end.

Fixpoint select {A : Type} (l : list A) (mask : list bool) : list A :=
  match l, mask with
  | x :: l', b :: mask' => if b then x :: select l' mask' else select l' mask'
  | _, _ => []
  end.

(** [df[mask]]: a new frame with the rows the mask keeps. *)
Definition getitem_mask (df : DataFrame) (mask : list bool) : DataFrame :=
  mkDataFrame (columns df) (select (rows df) mask).

(** ** Loading and enrichment (app.py, lines 37-67) *)

(** A source file as its reader finds it: not there; there, but the
    reader raises an exception on it; or there with the content that the
    reader returns. [read_csv] raises EmptyDataError on a file without
    content and ParserError on rows that it cannot tokenize, [json.load]
    raises JSONDecodeError on a text that is no JSON document (the empty
    text included), and both fail with UnicodeDecodeError on bytes that
    are no UTF-8 text and with PermissionError on a file that may not be
    read. *)
Inductive file (A : Type) : Type :=
  | Absent
  | Unreadable (e : exn)
  | Content (a : A).

Arguments Absent {A}.
Arguments Unreadable {A} e.
Arguments Content {A} a.

(** The boundary file: only the name property of its features is read. *)
Record GeoJSON : Type := mkGeoJSON { NAME_1 : list string }.

(** [pd.read_csv(path)] *)
Definition read_csv (f : file DataFrame) : exc DataFrame :=
  match f with
  | Absent => Raise FileNotFoundError
  | Unreadable e => Raise e
  | Content df => Ok df
  end.

(** [with open(...) as f: json.load(f)] *)
Definition json_load (f : file GeoJSON) : exc GeoJSON :=
  match f with
  | Absent => Raise FileNotFoundError
  | Unreadable e => Raise e
  | Content g => Ok g
  end.

Definition region_map_items : list (string * string) :=
  [("Tunis", "Grand Tunis"); ("Ariana", "Grand Tunis");
   ("Ben Arous", "Grand Tunis"); ("Manouba", "Grand Tunis");
   ("Nabeul", "Nord-Est"); ("Zaghouan", "Nord-Est"); ("Bizerte", "Nord-Est");
   ("Beja", "Nord-Ouest"); ("Jendouba", "Nord-Ouest");
   ("Le Kef", "Nord-Ouest"); ("Siliana", "Nord-Ouest");
   ("Sousse", "Centre-Est"); ("Monastir", "Centre-Est");
   ("Mahdia", "Centre-Est"); ("Sfax", "Centre-Est");
   ("Kairouan", "Centre-Ouest"); ("Kasserine", "Centre-Ouest");
   ("Sidi Bouzid", "Centre-Ouest");
   ("Gabes", "Sud-Est"); ("Medenine", "Sud-Est"); ("Tataouine", "Sud-Est");
   ("Gafsa", "Sud-Ouest"); ("Tozeur", "Sud-Ouest"); ("Kebili", "Sud-Ouest")].

Definition region_map : gmap string string := list_to_map region_map_items.

(** [series.map(d)] on one value: a value that is not a key of the
    dictionary becomes missing. *)
Definition map_dict (d : gmap string string) (v : value) : value :=
  match v with
  | VStr s =>
      match d !! s with
      | Some t => VStr t
      | None => NaN
      end
  | VNum _ => NaN
  end.

Definition df_delegations : DataFrame :=
  empty_frame ["Name"; "Governorate"; "Region"; "Poverty_Rate"; "Type"].

(** [df[c].map(d)]. With the label once, [df[c]] is a series and [map]
    looks its values up in the dictionary. With the label twice, [df[c]]
    is a frame, and the [map] of a frame takes a function: the dictionary
    raises TypeError. *)
Definition getitem_map (twice : bool) (d : gmap string string)
    (s : list value) : exc (list value) :=
  if twice then Raise TypeError else Ok (map_dict d <$> s).

(** Lines 44-56: the governorate frame before the placeholder is added.
    A source that has a Name column beside Governorate has the label
    Name twice once renamed. *)
Definition enrich_governorates (df_poverty : DataFrame) : exc DataFrame :=
  let twice := relabelled_twice df_poverty "Governorate" "Name" in
  let df_poverty := rename df_poverty "Governorate" "Name" in
  let df_poverty := setitem_scalar df_poverty "Type" (VStr "Gouvernorat") in
  names ← getitem df_poverty "Name";
  regions ← getitem_map twice region_map names;
  setitem df_poverty "Region" regions.

(** Lines 44-62: the enrichment steps of [load_data]. *)
Definition enrich (df_poverty : DataFrame) : exc DataFrame :=
  df_poverty ← enrich_governorates df_poverty;
  Ok (concat df_poverty df_delegations).

Definition load_body (csv : file DataFrame) (geo : file GeoJSON)
    : exc (DataFrame * GeoJSON) :=
  df_poverty ← read_csv csv;
  geojson_data ← json_load geo;
  df_poverty ← enrich df_poverty;
  Ok (df_poverty, geojson_data).

(** What [load_data] hands to its caller: the loaded pair, or the pair
    [(None, None)] after [st.error]; any exception other than
    FileNotFoundError leaves the function. *)
Inductive loaded : Type :=
  | Data (df_poverty : DataFrame) (geojson_data : GeoJSON)
  | NoData.

Definition load_data (csv : file DataFrame) (geo : file GeoJSON)
    : exc loaded :=
  match load_body csv geo with
  | Ok (df_poverty, geojson_data) => Ok (Data df_poverty geojson_data)
  | Raise FileNotFoundError => Ok NoData
  | Raise e => Raise e
  end.

(** ** Numeric series *)

(** The numeric operations below are modelled on float64 series. Frames
    carry no dtype here: a column is taken for a float64 column when none
    of its cells is a string, and a column that holds a string is an
    object column, which the numeric operations reject with a TypeError.
    (pandas decides by the dtype alone, so it also rejects an object
    column that holds no string.) *)
Definition as_float (v : value) : exc float64 :=
  match v with
  | VNum x => Ok x
  | VStr _ => Raise TypeError
  end.

Fixpoint floats (s : list value) : exc (list float64) :=
  match s with
  | [] => Ok []
  | v :: s' => x ← as_float v; xs ← floats s'; Ok (x :: xs)
  end.

Definition numeric (df : DataFrame) (c : string) : exc (list float64) :=
  s ← getitem df c; floats s.

(** The float a row carries under a label (NaN when it carries none). *)
Definition num_cell (c : string) (r : row) : float64 :=
  match cell r c with
  | VNum x => x
  | VStr _ => nan
  end.

(** [series.sum()] of a boolean series. *)
Definition sum_bool (l : list bool) : Z :=
  foldr (fun b acc => ((if b : bool then 1 else 0) + acc)%Z) 0%Z l.

(** ** The governorate page (app.py, lines 394-467) *)

(** [df_poverty[df_poverty['Type'] == 'Gouvernorat']] *)
Definition gov_data (df_poverty : DataFrame) : exc DataFrame :=
  types ← getitem df_poverty "Type";
  Ok (getitem_mask df_poverty ((fun v => eq_str v "Gouvernorat") <$> types)).

(** [gov_data[gov_data['Name'] == selected_gov].iloc[0]] *)
Definition gov_info (gov_data : DataFrame) (selected_gov : string) : exc row :=
  names ← getitem gov_data "Name";
  match select (rows gov_data) ((fun v => eq_str v selected_gov) <$> names) with
  | r :: _ => Ok r
  | [] => Raise IndexError
  end.

(** [(gov_data['Poverty_Rate'] > gov_info['Poverty_Rate']).sum() + 1] *)
Definition rank (gov_data : DataFrame) (gov_info : row) : exc Z :=
  rates ← numeric gov_data "Poverty_Rate";
  rate ← as_float (cell gov_info "Poverty_Rate");
  Ok (sum_bool ((fun r => gtb r rate) <$> rates) + 1)%Z.

(** The spec's [rank(rate, allRates)]: one plus the number of rates that
    are strictly greater. *)
Definition rank_spec (rate : float64) (allRates : list float64) : Z :=
  (1 + Z.of_nat (length (filter (fun r => gtb r rate = true) allRates)))%Z.

(** *** Selection of the [n] largest or smallest *)

Section SelectN.

Context {A : Type} (key : A -> float64).

(** [x] is placed strictly before [y]: a greater (smaller) key first,
    a missing key after every number. *)
Definition before_desc (x y : A) : bool :=
  gtb (key x) (key y) || (negb (is_nan (key x)) && is_nan (key y)).

Definition before_asc (x y : A) : bool :=
  ltb (key x) (key y) || (negb (is_nan (key x)) && is_nan (key y)).

Variable before : A -> A -> bool.

(** [x] comes from further left than the elements of [l]: it passes
    the elements that go strictly before it and stops at the first
    that does not, so that equal keys keep their order. *)
Fixpoint insert_by (x : A) (l : list A) : list A :=
  match l with
  | [] => [x]
  | y :: l' => if before y x then y :: insert_by x l' else x :: l
  end.

Definition sort_by (l : list A) : list A := foldr insert_by [] l.

End SelectN.

(** [df.nlargest(n, c)] over a float64 column: the first [n] rows in
    descending order of the column, first occurrences first among equal
    keys ([keep='first']). A column that holds a string is an object
    column and is rejected. *)
Definition nlargest (n : nat) (c : string) (df : DataFrame) : exc DataFrame :=
  _ ← numeric df c;
  Ok (mkDataFrame (columns df)
        (take n (sort_by (before_desc (num_cell c)) (rows df)))).

Definition nsmallest (n : nat) (c : string) (df : DataFrame) : exc DataFrame :=
  _ ← numeric df c;
  Ok (mkDataFrame (columns df)
        (take n (sort_by (before_asc (num_cell c)) (rows df)))).

(** [df[[c1; ...; cn]]]: the frame restricted to the listed columns. *)
Definition getitem_columns (df : DataFrame) (cs : list string)
    : exc DataFrame :=
  match filter (fun c => c ∉ columns df) cs with
  | [] =>
      Ok (mkDataFrame cs
            ((fun r => filter (fun kv => kv.1 ∈ cs) r) <$> rows df))
  | c :: _ => Raise (KeyError c)
  end.

Definition top5_poor (gov_data : DataFrame) : exc DataFrame :=
  top ← nlargest 5 "Poverty_Rate" gov_data;
  getitem_columns top ["Name"; "Poverty_Rate"; "Region"].

Definition top5_rich (gov_data : DataFrame) : exc DataFrame :=
  bottom ← nsmallest 5 "Poverty_Rate" gov_data;
  getitem_columns bottom ["Name"; "Poverty_Rate"; "Region"].

(** ** Statistics by region (app.py, lines 503-509) *)

Module Agg.

(** The aggregates skip missing values. *)
Definition dropna (l : list float64) : list float64 :=
  filter (fun x => is_nan x = false) l.

(** pandas writes the group mean and the group variance once, for each
    of its floating types; they are written here once for any arithmetic
    and run by the program on binary64 numbers. *)
Record arithmetic (T : Type) : Type := mkArithmetic {
  zero : T;
  plus : T -> T -> T;
  minus : T -> T -> T;
  times : T -> T -> T;
  quot : T -> T -> T;
  of_count : nat -> T;
  is_missing : T -> bool
}.

Arguments zero {T} _.
Arguments plus {T} _ _ _.
Arguments minus {T} _ _ _.
Arguments times {T} _ _ _.
Arguments quot {T} _ _ _.
Arguments of_count {T} _ _.
Arguments is_missing {T} _ _.

Definition binary64 : arithmetic float64 :=
  mkArithmetic float64 (S754_zero false) add sub mul div
    (fun n => of_Z (Z.of_nat n)) is_nan.

Section Steps.

Context {T : Type} (A : arithmetic T).

(** The group mean adds the values with Kahan's compensated summation:
    [sumx] is the running sum and [compensation] the rounding error of
    the last addition, which the next value is corrected by; a
    compensation that is no number (after an infinite value) is reset. *)
Definition sum_step (acc : T * T) (val : T) : T * T :=
  let '(sumx, compensation) := acc in
  let y := minus A val compensation in
  let t := plus A sumx y in
  let compensation := minus A (minus A t sumx) y in
  (t, if is_missing A compensation then zero A else compensation).

Definition sum_in (l : list T) : T :=
  (foldl sum_step (zero A, zero A) l).1.

Definition mean_in (l : list T) : T :=
  quot A (sum_in l) (of_count A (length l)).

(** The group variance is accumulated in one pass (Welford): [nobs]
    values seen, their running [mean], and [out], the sum of the squared
    deviations; then [out / (nobs - ddof)] with [ddof = 1], and no
    variance for [nobs <= ddof]. *)
Definition var_step (acc : nat * T * T) (val : T) : nat * T * T :=
  let '(nobs, mean, out) := acc in
  let nobs := S nobs in
  let oldmean := mean in
  let mean := plus A mean (quot A (minus A val oldmean) (of_count A nobs)) in
  (nobs, mean, plus A out (times A (minus A val mean) (minus A val oldmean))).

Definition var_in (l : list T) : option T :=
  let '(nobs, _, out) := foldl var_step (O, zero A, zero A) l in
  if (nobs <=? 1)%nat then None
  else Some (quot A out (of_count A (nobs - 1))).

End Steps.

Definition mean (l : list float64) : float64 :=
  mean_in binary64 (dropna l).

Definition min (l : list float64) : float64 :=
  match dropna l with
  | [] => nan
  | x :: l' => foldl (fun m y => if ltb y m then y else m) x l'
  end.

Definition max (l : list float64) : float64 :=
  match dropna l with
  | [] => nan
  | x :: l' => foldl (fun m y => if gtb y m then y else m) x l'
  end.

(** The middle of the sorted values, the mean of the two middle ones
    for an even count. *)
Definition median (l : list float64) : float64 :=
  let s := sort_by (before_asc (fun x => x)) (dropna l) in
  let n := length s in
  let hi := default nan (s !! (n / 2)%nat) in
  if Nat.even n then
    match n with
    | O => nan
    | _ => div (add (default nan (s !! (n / 2 - 1)%nat)) hi) (of_Z 2)
    end
  else hi.

(** Sample standard deviation ([ddof=1]); missing below two values. *)
Definition std (l : list float64) : float64 :=
  match var_in binary64 (dropna l) with
  | Some v => sqrt v
  | None => nan
  end.

(** Round to the nearest integer-valued float, a tie to the even one. *)
Definition rint (x : float64) : float64 :=
  match x with
  | S754_finite s _ _ =>
      match round_nearest x with
      | Ok 0%Z => S754_zero s
      | Ok z => of_Z z
      | Raise _ => x
      end
  | _ => x
  end.

(** [round(2)]: scale by 100, round to an integer, scale back. *)
Definition round2 (x : float64) : float64 :=
  div (rint (mul x (of_Z 100))) (of_Z 100).

End Agg.

(** A row of the [stats] table. *)
Record Stats : Type := mkStats {
  Moyenne : float64;
  Médiane : float64;
  Min : float64;
  Max : float64;
  Écart_type : float64
}.

(** [.agg([('Moyenne', 'mean'), ..., ('Écart-type', 'std')])] *)
Definition agg (l : list float64) : Stats :=
  mkStats (Agg.mean l) (Agg.median l) (Agg.min l) (Agg.max l) (Agg.std l).

(** [.round(2)] *)
Definition round_stats (s : Stats) : Stats :=
  mkStats (Agg.round2 (Moyenne s)) (Agg.round2 (Médiane s))
    (Agg.round2 (Min s)) (Agg.round2 (Max s)) (Agg.round2 (Écart_type s)).

(** [groupby]: the values of each key in table order; a row whose key is
    missing belongs to no group. The key column holds strings or missing
    values (as [Region] does after enrichment). *)
Fixpoint group_by (kvs : list (value * float64)) : gmap string (list float64) :=
  match kvs with
  | [] => ∅
  | (k, v) :: kvs' =>
      let g := group_by kvs' in
      match k with
      | VStr s => <[s := v :: default [] (g !! s)]> g
      | VNum _ => g
      end
  end.

Definition stats (gov_data : DataFrame) : exc (gmap string Stats) :=
  regions ← getitem gov_data "Region";
  rates ← numeric gov_data "Poverty_Rate";
  Ok ((fun l => round_stats (agg l)) <$> group_by (zip regions rates)).

(** The rates of the governorates of a region, in table order. *)
Definition member_rates (gov_data : DataFrame) (R : string) : list float64 :=
  num_cell "Poverty_Rate"
    <$> filter (fun r => eq_str (cell r "Region") R = true) (rows gov_data).

(** ** The choropleth's frame (app.py, lines 165-177) *)

Definition name_mapping : gmap string string :=
  list_to_map
    [("Ben Arous", "BenArous(TunisSud)"); ("Beja", "Béja"); ("Gabes", "Gabès");
     ("Kasserine", "Kassérine"); ("Le Kef", "LeKef"); ("Manouba", "Manubah");
     ("Medenine", "Médenine"); ("Sidi Bouzid", "SidiBouZid")].

(** [series.replace(d)] on one value: a value that is a key is replaced,
    any other value stays. *)
Definition replace_dict (d : gmap string string) (v : value) : value :=
  match v with
  | VStr s =>
      match d !! s with
      | Some t => VStr t
      | None => v
      end
  | VNum _ => v
  end.

(** Frames are objects: a variable holds a reference into a store, and
    [df[c] = ...] changes the frame the reference points to. *)
Module Store.

Abbreviation store := (gmap nat DataFrame).

Definition M (A : Type) : Type := store -> exc A * store.

Definition ret {A : Type} (a : A) : M A := fun σ => (Ok a, σ).

Definition bind {A B : Type} (c : M A) (k : A -> M B) : M B :=
  fun σ =>
    match c σ with
    | (Ok a, σ') => k a σ'
    | (Raise e, σ') => (Raise e, σ')
    end.

Definition lift {A : Type} (c : exc A) : M A := fun σ => (c, σ).

(** The frame behind a reference (a reference always points to one). *)
Definition deref (p : nat) : M DataFrame :=
  fun σ => (Ok (default (empty_frame []) (σ !! p)), σ).

(** A new object. *)
Definition new (df : DataFrame) : M nat :=
  fun σ => let p := fresh (dom σ) in (Ok p, <[p := df]> σ).

(** [p[c]] *)
Definition column (p : nat) (c : string) : M (list value) :=
  bind (deref p) (fun df => lift (getitem df c)).

(** [p[mask]]: a new frame. *)
Definition masked (p : nat) (mask : list bool) : M nat :=
  bind (deref p) (fun df => new (getitem_mask df mask)).

(** [p.copy()]: a new frame with the same content. *)
Definition copy (p : nat) : M nat :=
  bind (deref p) new.

(** [p[c] = vs]: the frame behind [p] is replaced in the store. *)
Definition assign (p : nat) (c : string) (vs : list value) : M unit :=
  bind (deref p) (fun df =>
    bind (lift (setitem df c vs)) (fun df' =>
      fun σ => (Ok tt, <[p := df']> σ))).

End Store.

Global Instance store_ret : MRet Store.M := @Store.ret.

Global Instance store_bind : MBind Store.M := fun A B k c => Store.bind c k.

(** Lines 165-177: the frame handed to [px.choropleth]. *)
Definition gov_data_for_map (df_poverty : nat) : Store.M nat :=
  types ← Store.column df_poverty "Type";
  filtered ← Store.masked df_poverty
               ((fun v => eq_str v "Gouvernorat") <$> types);
  gov_data_for_map ← Store.copy filtered;
  names ← Store.column gov_data_for_map "Name";
  _ ← Store.assign gov_data_for_map "display_name" names;
  names ← Store.column gov_data_for_map "Name";
  _ ← Store.assign gov_data_for_map "Name"
        (replace_dict name_mapping <$> names);
  mret gov_data_for_map.

(** ** Member lists of the regional summary *)

(** The governorates that [region_map] sends to a region, in the order of
    the dictionary. *)
Definition members (region : string) : list string :=
  (filter (fun kv => kv.2 = region) region_map_items).*1.

(** The names of a comma-joined list: [s.split(', ')]. *)
Fixpoint split_names (acc s : string) : list string :=
  match s with
  | EmptyString => [acc]
  | String ","%char (String " "%char s') => acc :: split_names "" s'
  | String a s' => split_names (acc +:+ String a "") s'
  end.

Definition member_names (r : RegionRow) : list string :=
  split_names "" (Gouvernorats r).

(** ** The region page (app.py, lines 236-387) *)

(** The options of the region selector: [df_regions['Région'].tolist()]. *)
Definition region_options : list string := Région <$> df_regions.

(** The colours of the comparison bars (line 275): the selected region
    in red, the others in blue. *)
Definition marker_color (selected_region : string) : list string :=
  (fun r : string =>
     if decide (r = selected_region) then "#E53935" else "#90CAF9")
    <$> (Région <$> df_regions).

(** An entry of [region_insights]. *)
Record Insights : Type := mkInsights {
  Caractéristiques : list string;
  Délégations_pauvres : string;
  Délégations_riches : string
}.

Definition region_insights_items : list (string * Insights) :=
  [("Grand Tunis",
    mkInsights
      ["Region la plus nantie de Tunisie";
       "Forte densité démographique";
       "Économie diversifiée (services, industrie)";
       "Infrastructure moderne développée"]
      "Tebourba (15.2%), El Battane (14.5%), Kalaat El Andalous (12.5%)"
      "El Menzah (0.2%), La Goulette (1.1%), L'Ariana Ville (1.3%)");
   ("Nord-Est",
    mkInsights
      ["Zone côtière avec activité touristique";
       "Agriculture développée (primeurs)";
       "Poches de pauvreté dans zones rurales";
       "Disparités entre côte et intérieur"]
      "Sedjnane (39.9%), Djoumine (36.6%), Ghezala (34%)"
      "Nabeul (4.7%), Dar Chaabane Fehri (4.9%), Bizerte Nord (5.3%)");
   ("Nord-Ouest",
    mkInsights
      ["Region parmi les plus pauvres";
       "Vocation agricole dominante";
       "Exode rural important";
       "Infrastructure de base limitée"]
      "Nebeur (45.4%), El-Rouhia (40.7%), Sakiet Sidi Youssef (39.7%)"
      "Jendouba Sud (10.7%), Bou Salem (16.6%), Tabarka (16.7%)");
   ("Centre-Est",
    mkInsights
      ["Region hétérogène";
       "Tourisme et industrie développés";
       "Sfax: pôle économique majeur";
       "Disparités importantes internes"]
      "Chorbane (36.9%), Ouled Chamekh (35%), Hebira (33.4%)"
      "Sfax Ville (2.5%), Sfax Ouest (3.0%), Sfax Sud (3.0%)");
   ("Centre-Ouest",
    mkInsights
      ["Region la plus pauvre de Tunisie";
       "Agriculture vivrière prédominante";
       "Taux de chômage très élevé";
       "Déficit d'infrastructure important"]
      "Hassi Ferid (53.5%), Djedeliane (53.1%), El Ayoun (50.1%)"
      "Sidi Bouzid Ouest (17.4%), Kasserine Nord (18.9%), Souk Jedid (20.8%)");
   ("Sud-Est",
    mkInsights
      ["Hétérogénéité importante";
       "Zones urbaines plus riches";
       "Zones rurales plus pauvres";
       "Tourisme sur les îles (Djerba)"]
      "Beni Khedache (36.9%), Menzel El Habib (33.6%), Sidi Makhlouf (33.4%)"
      "Gabes Sud (9.4%), Djerba Houmet Souk (9.5%)");
   ("Sud-Ouest",
    mkInsights
      ["Zones urbaines relativement riches";
       "Poches de pauvreté au Nord-Est";
       "Ressources naturelles (phosphate)";
       "Oasis et agriculture spécialisée"]
      "Belkhir (31.2%), Sned (27.2%), Douz Sud (25.9%)"
      "Tozeur (10.3%), Kebili Nord (12.3%), Gafsa Sud (15.4%)")].

Definition region_insights : gmap string Insights :=
  list_to_map region_insights_items.

(** Lines 372-387: the detailed analysis is shown for a region that
    [region_insights] knows. *)
Definition insights (selected_region : string) : option Insights :=
  if decide (is_Some (region_insights !! selected_region))
  then region_insights !! selected_region
  else None.

(** ** Bar colours of the governorate page (app.py, line 449) *)

(** [['#E53935' if name == selected_gov else '#1f77b4' for name in
    gov_data_sorted['Name']]] *)
Definition colors (gov_data_sorted : DataFrame) (selected_gov : string)
    : exc (list string) :=
  names ← getitem gov_data_sorted "Name";
  Ok ((fun name : value =>
         if eq_str name selected_gov then "#E53935" else "#1f77b4")
        <$> (names : list value)).

(** ** Notions and tables of the statements *)

(** Numbers are ordered as their keys are, lexicographically: the sign
    class, then the exponent, then the mantissa. *)
Definition fkey (x : float64) : Z * Z * Z :=
  match x with
  | S754_infinity true => (-2, 0, 0)%Z
  | S754_finite true m e => (-1, - e, - Zpos m)%Z
  | S754_zero _ | S754_nan => (0, 0, 0)%Z
  | S754_finite false m e => (1, e, Zpos m)%Z
  | S754_infinity false => (2, 0, 0)%Z
  end.

Definition key_lt (p q : Z * Z * Z) : Prop :=
  let '(a, b, c) := p in
  let '(a', b', c') := q in
  (a < a' \/ (a = a' /\ (b < b' \/ (b = b' /\ c < c'))))%Z.

(** No element goes strictly before one that precedes it. *)
Definition in_order {A : Type} (before : A -> A -> bool) (x y : A) : Prop :=
  before y x = false.

(** Every cell of a row lies under one of the frame's labels. *)
Definition well_formed (df : DataFrame) : Prop :=
  Forall (fun r : row => dom r ⊆ list_to_set (columns df)) (rows df).

(** The source names its governorates under one label: Governorate, or
    Name already. *)
Definition one_name_column (raw : DataFrame) : Prop :=
  ("Governorate" ∈ columns raw /\ ("Name" ∉ columns raw)) \/
  (("Governorate" ∉ columns raw) /\ "Name" ∈ columns raw).

(** What the enrichment steps make of one row of the source. *)
Definition enrich_row (r : row) : row :=
  let r :=
    <["Type" := VStr "Gouvernorat"]> (rename_key "Governorate" "Name" r) in
  <["Region" := map_dict region_map (cell r "Name")]> r.

Definition enriched_columns (raw : DataFrame) : list string :=
  with_column
    (with_column (columns (rename raw "Governorate" "Name")) "Type") "Region".

(** The region of a known governorate. *)
Definition region_of (name : string) : string :=
  default "" (region_map !! name).

(** The row handed to the map for a governorate row. *)
Definition map_row (r : row) : row :=
  <["Name" := replace_dict name_mapping (cell r "Name")]>
    (<["display_name" := cell r "Name"]> r).

Definition map_view (f : DataFrame) : DataFrame :=
  mkDataFrame
    (with_column (with_column (columns f) "display_name") "Name")
    (map_row <$> rows f).

(** The cells of a row under the listed labels. *)
Definition restrict (cs : list string) (r : row) : row :=
  filter (fun kv => kv.1 ∈ cs) r.

Definition grand_tunis : RegionRow :=
  mkRegionRow "Grand Tunis" (dec 61 10) 2719000
    "Tunis, Ariana, Ben Arous, Manouba".

Definition raw_row (name : string) (rate : float64) : row :=
  {[ "Governorate" := VStr name; "Poverty_Rate" := VNum rate ]}.

(** A source with a name that [region_map] does not know. *)
Definition unmapped_raw : DataFrame :=
  mkDataFrame ["Governorate"; "Poverty_Rate"]
    [raw_row "Tunis" (dec 46 10); raw_row "Atlantis" (dec 100 10)].




Definition some_geo : GeoJSON := mkGeoJSON ["Tunis"; "Ariana"].

(** The source schema that the code relies on: a name and a rate. *)
Definition source_schema : DataFrame :=
  empty_frame ["Governorate"; "Poverty_Rate"].

(** The scenario of the spec: A, B and C of region R at 10, 20 and 30
    percent; and the same region with rates 10, 10 and 11. *)
Definition stats_row (name : string) (rate : Z) (region : string) : row :=
  {[ "Name" := VStr name; "Poverty_Rate" := VNum (of_Z rate);
     "Region" := VStr region; "Type" := VStr "Gouvernorat" ]}.

Definition scenario_ABC : DataFrame :=
  mkDataFrame ["Name"; "Poverty_Rate"; "Region"; "Type"]
    [stats_row "A" 10 "R"; stats_row "B" 20 "R"; stats_row "C" 30 "R"].

Definition scenario_thirds : DataFrame :=
  mkDataFrame ["Name"; "Poverty_Rate"; "Region"; "Type"]
    [stats_row "A" 10 "R"; stats_row "B" 10 "R"; stats_row "C" 11 "R"].

(** A table of the 24 governorates; the rates are illustrative (the data
    file is not among the sources), between the 4.6 of Tunis and the 33.1
    of Le Kef that the page quotes. *)
Definition sample_raw : DataFrame :=
  mkDataFrame ["Governorate"; "Poverty_Rate"]
    (zip_with raw_row region_map_items.*1
       [dec 46 10; dec 54 10; dec 51 10; dec 121 10;
        dec 74 10; dec 121 10; dec 175 10;
        dec 320 10; dec 224 10; dec 331 10; dec 278 10;
        dec 162 10; dec 83 10; dec 211 10; dec 58 10;
        dec 329 10; dec 328 10; dec 231 10;
        dec 159 10; dec 217 10; dec 150 10;
        dec 180 10; dec 146 10; dec 185 10]).

Definition sample_gov_data : DataFrame :=
  match enrich sample_raw with
  | Ok df_poverty => df_poverty
  | Raise _ => empty_frame []
  end.

(** Rates with a decimal: 4.8, 2.1, 18.3 and 4.1 percent in region R. *)
Definition scenario_tenths : DataFrame :=
  mkDataFrame ["Name"; "Poverty_Rate"; "Region"; "Type"]
    ((fun '(name, rate) =>
        <["Poverty_Rate" := VNum rate]> (stats_row name 0 "R"))
       <$> [("A", dec 48 10); ("B", dec 21 10);
            ("C", dec 183 10); ("D", dec 41 10)]).

(** The mean and the sample variance in the words of the spec, over the
    rationals: the sum of the values over their count, and the sum of
    the squared deviations from the mean over the count less one. The
    arithmetic of the rationals is exact and has no missing value. *)
Definition Qc_of_nat (n : nat) : Qc := Q2Qc (inject_Z (Z.of_nat n)).

Definition exact : Agg.arithmetic Qc :=
  Agg.mkArithmetic Qc 0%Qc Qcplus Qcminus Qcmult Qcdiv Qc_of_nat
    (fun _ => false).

Definition total (q : list Qc) : Qc := foldr Qcplus 0%Qc q.

Definition mean_spec (q : list Qc) : Qc :=
  (total q / Qc_of_nat (length q))%Qc.

Definition sample_variance_spec (q : list Qc) : Qc :=
  (total ((fun x => (x - mean_spec q) * (x - mean_spec q)) <$> q)
   / Qc_of_nat (length q - 1))%Qc.

Definition sq (x : Qc) : Qc := (x * x)%Qc.

(** The state of the one-pass variance after the values [p]: their
    count, their mean, and the sum of their squares less the count times
    the squared mean. *)
Definition moments (p : list Qc) (st : nat * Qc * Qc) : Prop :=
  let '(n, m, out) := st in
  n = length p /\ (Qc_of_nat n * m)%Qc = total p /\
  out = (total (sq <$> p) - Qc_of_nat n * m * m)%Qc.

(** The order statistics in the words of the spec, over numbers: the
    minimum is a member that no member is below, the maximum a member
    that no member is above, and the median is the middle of the members
    put in ascending order, the mean of the two middle ones for an even
    count. *)
Definition min_of (l : list float64) (m : float64) : Prop :=
  m ∈ l /\ Forall (fun x => leb m x = true) l.

Definition max_of (l : list float64) (m : float64) : Prop :=
  m ∈ l /\ Forall (fun x => leb x m = true) l.

Definition median_of (l : list float64) (m : float64) : Prop :=
  exists s : list float64,
    s ≡ₚ l /\ StronglySorted (fun x y => leb x y = true) s /\
    let n := length s in
    if Nat.even n then
      exists a b : float64,
        s !! (n / 2 - 1)%nat = Some a /\ s !! (n / 2)%nat = Some b /\
        m = div (add a b) (of_Z 2)
    else s !! (n / 2)%nat = Some m.

(** A table with a region of one governorate. *)
Definition scenario_single : DataFrame :=
  mkDataFrame ["Name"; "Poverty_Rate"; "Region"; "Type"]
    [stats_row "A" 10 "R"; stats_row "B" 20 "S"; stats_row "C" 30 "R"].

(** The rows that the load makes of [unmapped_raw]: Tunis with its
    region and Atlantis without one. *)
Definition tunis_row : row := enrich_row (raw_row "Tunis" (dec 46 10)).

Definition atlantis_row : row := enrich_row (raw_row "Atlantis" (dec 100 10)).

(** * Properties *)

(** ** The order of binary64 numbers *)

Section FloatOrder.

Local Open Scope Z_scope.

Ltac compare_cases :=
  change (Pos.compare_cont Eq) with Pos.compare;
  repeat match goal with
    | |- context [Z.compare ?a ?b] => destruct (Z.compare_spec a b)
    | |- context [Pos.compare ?a ?b] => destruct (Pos.compare_spec a b)
    end.

Ltac order_cases x y :=
  destruct x as [[]|[]| |[] ? ?], y as [[]|[]| |[] ? ?]; simpl;
  compare_cases; simpl; split; intros;
  try discriminate; try lia; try (intuition (try discriminate; lia)).

Lemma ltb_key (x y : float64) :
  ltb x y = true <->
  is_nan x = false /\ is_nan y = false /\ key_lt (fkey x) (fkey y).
Proof. unfold ltb, SFltb, SFcompare. order_cases x y. Qed.

Lemma leb_key (x y : float64) :
  leb x y = true <->
  is_nan x = false /\ is_nan y = false /\ ~ key_lt (fkey y) (fkey x).
Proof. unfold leb, SFleb, SFcompare. order_cases x y. Qed.

Lemma eqb_key (x y : float64) :
  SFeqb x y = true <->
  is_nan x = false /\ is_nan y = false /\ fkey x = fkey y.
Proof.
  unfold SFeqb, SFcompare.
  destruct x as [[]|[]| |[] ? ?], y as [[]|[]| |[] ? ?]; simpl;
    compare_cases; simpl; split; intros;
    try discriminate; try lia;
    try (intuition (try discriminate; try congruence; try lia)).
  all: try (repeat f_equal; lia).
  all: match goal with
       | H : (_, _, _) = (_, _, _) |- _ => injection H as; lia
       end.
Qed.

Lemma key_lt_irrefl (p : Z * Z * Z) : ~ key_lt p p.
Proof. destruct p as [[a b] c]. simpl. lia. Qed.

Lemma key_lt_trans (p q r : Z * Z * Z) :
  key_lt p q -> key_lt q r -> key_lt p r.
Proof.
  destruct p as [[a b] c], q as [[a' b'] c'], r as [[a'' b''] c''].
  simpl. lia.
Qed.

Lemma key_le_trans (p q r : Z * Z * Z) :
  ~ key_lt q p -> ~ key_lt r q -> ~ key_lt r p.
Proof.
  destruct p as [[a b] c], q as [[a' b'] c'], r as [[a'' b''] c''].
  simpl. lia.
Qed.

Lemma gtb_irrefl (x : float64) : gtb x x = false.
Proof.
  apply not_true_is_false. unfold gtb. fold (ltb x x).
  rewrite ltb_key. intros (_ & _ & H). by apply key_lt_irrefl in H.
Qed.

Lemma gtb_trans (x y z : float64) :
  gtb x y = true -> gtb y z = true -> gtb x z = true.
Proof.
  unfold gtb. fold (ltb y x) (ltb z y) (ltb z x). rewrite !ltb_key.
  intros (? & ? & ?) (? & ? & ?). eauto using key_lt_trans.
Qed.

(** Equal numbers (such as the two zeros) compare alike. *)
Lemma gtb_eqb_r (r x y : float64) :
  SFeqb x y = true -> gtb r x = gtb r y.
Proof.
  rewrite eqb_key. intros (Hx & Hy & Hk). unfold gtb.
  fold (ltb x r) (ltb y r). apply eq_true_iff_eq.
  rewrite !ltb_key, Hk. tauto.
Qed.

(** Among numbers, not being smaller is being greater or equal. *)
Lemma geb_total (x y : float64) :
  is_nan x = false -> is_nan y = false ->
  geb x y = true <-> ltb x y = false.
Proof.
  intros Hx Hy. unfold geb. fold (leb y x).
  rewrite <- not_true_iff_false, leb_key, ltb_key. tauto.
Qed.

Lemma geb_trans (x y z : float64) :
  geb x y = true -> geb y z = true -> geb x z = true.
Proof.
  unfold geb. fold (leb y x) (leb z y) (leb z x). rewrite !leb_key.
  intros (? & ? & ?) (? & ? & ?). eauto using key_le_trans.
Qed.

End FloatOrder.

(** ** The poor-population estimate *)

(** The rates of the regional summary, written [dec n 10], are the
    binary64 numbers that the decimal literals of the source denote. *)
Lemma summary_rate_literals :
  region_summary.Taux_Pauvreté =
    [Prim2SF 6.1%float; Prim2SF 11.9%float; Prim2SF 25.8%float;
     Prim2SF 11.7%float; Prim2SF 29.3%float; Prim2SF 17.8%float;
     Prim2SF 18.2%float].
Proof. vm_compute. reflexivity. Qed.

Lemma trunc_mag_bounds (m : positive) (e : Z) :
  (0 <= trunc_mag m e /\
   trunc_mag m e * 2 ^ Z.max 0 (- e) <= Zpos m * 2 ^ Z.max 0 e
     < (trunc_mag m e + 1) * 2 ^ Z.max 0 (- e))%Z.
Proof.
  unfold trunc_mag. destruct (Z.leb_spec 0 e) as [He | He].
  - rewrite Z.shiftl_mul_pow2 by done.
    rewrite (Z.max_l 0 (- e)), (Z.max_r 0 e) by lia.
    assert (0 < 2 ^ e)%Z by (apply Z.pow_pos_nonneg; lia).
    change (2 ^ 0)%Z with 1%Z. nia.
  - rewrite Z.shiftr_div_pow2 by lia.
    rewrite (Z.max_r 0 (- e)), (Z.max_l 0 e) by lia.
    assert (Hd : (0 < 2 ^ (- e))%Z) by (apply Z.pow_pos_nonneg; lia).
    change (2 ^ 0)%Z with 1%Z.
    pose proof (Z.mul_div_le (Zpos m) _ Hd).
    pose proof (Z.mul_succ_div_gt (Zpos m) _ Hd).
    assert (0 <= Zpos m / 2 ^ (- e))%Z by (apply Z.div_pos; lia).
    nia.
Qed.

(** C4, as the spec states it, fails on the first row of the table: the
    float quotient of 2,719,000 and 6.1 is [165859 - 2^-35], above the
    midpoint 165858.5, so that every rounding to nearest gives 165,859;
    [int] returns 165,858. *)
Lemma poor_population_grand_tunis_not_nearest :
  region_data "Grand Tunis" = Ok grand_tunis /\
  div (mul (of_Z 2719000) (dec 61 10)) (of_Z 100)
    = S754_finite false 5698871845978111 (-35) /\
  (165858 * 2 ^ 35 + 2 ^ 34 < 5698871845978111 < 165859 * 2 ^ 35)%Z /\
  estimatePoorPopulation_spec grand_tunis = Ok 165859%Z /\
  poor_population grand_tunis = Ok 165858%Z /\
  poor_population grand_tunis <> estimatePoorPopulation_spec grand_tunis.
Proof.
  split; [vm_compute; reflexivity |].
  split; [vm_compute; reflexivity |].
  split; [lia |].
  assert (Hs : estimatePoorPopulation_spec grand_tunis = Ok 165859%Z)
    by (vm_compute; reflexivity).
  assert (Hp : poor_population grand_tunis = Ok 165858%Z)
    by (vm_compute; reflexivity).
  rewrite Hs, Hp. repeat split. discriminate.
Qed.

(** C4 (amended): the estimate is the binary64 value of
    [population * rate / 100] truncated toward zero: for a finite
    quotient [(-1)^s * m * 2^e] it is [(-1)^s * k] with [k] the integer
    part of [m * 2^e]; nothing is rounded to nearest. For the seven
    regions it gives 165,858 (population 2,719,000, rate 6.1), 182,434,
    355,677, 301,863, 421,836, 178,582 and 109,601. *)
Theorem poor_population_truncates :
  (forall r : RegionRow,
     match div (mul (of_Z (Population r)) (Taux_Pauvreté r)) (of_Z 100) with
     | S754_finite s m e =>
         exists k : Z,
           poor_population r = Ok (cond_Zopp s k) /\
           (0 <= k)%Z /\
           (k * 2 ^ Z.max 0 (- e) <= Zpos m * 2 ^ Z.max 0 e
              < (k + 1) * 2 ^ Z.max 0 (- e))%Z
     | S754_zero _ => poor_population r = Ok 0%Z
     | S754_infinity _ => poor_population r = Raise OverflowError
     | S754_nan => poor_population r = Raise ValueError
     end) /\
  poor_population <$> df_regions =
    Ok <$> [165858; 182434; 355677; 301863; 421836; 178582; 109601]%Z.
Proof.
  split.
  - intros r. unfold poor_population.
    destruct (div _ _) as [| | | s m e]; simpl; try reflexivity.
    exists (trunc_mag m e). split; [reflexivity |]. apply trunc_mag_bounds.
  - vm_compute. reflexivity.
Qed.

(** ** Rank *)

Lemma floats_Ok (s : list value) (xs : list float64) :
  floats s = Ok xs <-> s = VNum <$> xs.
Proof.
  revert xs. induction s as [| v s IH]; intros xs; simpl.
  - split.
    + intros [= <-]. reflexivity.
    + destruct xs; [reflexivity | discriminate].
  - destruct v as [t | x]; simpl.
    + split; [discriminate | destruct xs; discriminate].
    + destruct (floats s) as [ys | e] eqn:Hs; simpl.
      * split.
        -- intros [= <-]. simpl. f_equal. by apply IH.
        -- destruct xs as [| y xs]; [discriminate |].
           intros [= -> Hxs]. apply IH in Hxs. by injection Hxs as ->.
      * split; [discriminate |].
        destruct xs as [| y xs]; [discriminate |].
        intros [= -> Hxs]. apply IH in Hxs. discriminate.
Qed.

(** A numeric column: the label is a column, every row carries a float
    under it, and the series lists these floats in row order. *)
Lemma numeric_Ok (df : DataFrame) (c : string) (xs : list float64) :
  numeric df c = Ok xs <->
  c ∈ columns df /\
  Forall (fun r => cell r c = VNum (num_cell c r)) (rows df) /\
  xs = num_cell c <$> rows df.
Proof.
  unfold numeric, getitem. destruct (decide (c ∈ columns df)) as [Hc | Hc];
    simpl; [| split; [discriminate | tauto]].
  rewrite floats_Ok. split.
  - intros H. split; [done |]. revert xs H.
    induction (rows df) as [| r l IH]; intros xs H; simpl in *.
    + destruct xs; [by split | discriminate].
    + destruct xs as [| x xs]; [discriminate |]. injection H as Hx Hl.
      destruct (IH _ Hl) as [HF ->]. unfold num_cell at 1 3. rewrite Hx.
      split; [| done]. constructor; [| done]. unfold num_cell. by rewrite Hx.
  - intros (_ & HF & ->). induction HF as [| r l Hr HF IH]; [done |].
    rewrite !fmap_cons. by f_equal.
Qed.

Lemma sum_bool_filter {A : Type} (f : A -> bool) (l : list A) :
  sum_bool (f <$> l) = Z.of_nat (length (filter (fun x => f x = true) l)).
Proof.
  induction l as [| x l IH]; [done |].
  rewrite fmap_cons, filter_cons.
  change (sum_bool (f x :: (f <$> l)))
    with ((if f x then 1 else 0) + sum_bool (f <$> l))%Z.
  rewrite IH. destruct (f x) eqn:Hx.
  - rewrite decide_True by done. simpl length. lia.
  - rewrite decide_False by (by intros ?). lia.
Qed.

Lemma filter_length_mono {A : Type} (P Q : A -> Prop)
    `{!forall x, Decision (P x)} `{!forall x, Decision (Q x)} (l : list A) :
  (forall x, x ∈ l -> P x -> Q x) ->
  length (filter P l) <= length (filter Q l).
Proof.
  induction l as [| x l IH]; intros HPQ; [done |].
  rewrite !filter_cons.
  assert (length (filter P l) <= length (filter Q l))
    by (apply IH; intros; apply HPQ; [by right | done]).
  destruct (decide (P x)) as [HP | HP].
  - rewrite decide_True by (apply HPQ; [by left | done]). simpl. lia.
  - destruct (decide (Q x)); simpl; lia.
Qed.

Lemma filter_length_lt {A : Type} (P Q : A -> Prop)
    `{!forall x, Decision (P x)} `{!forall x, Decision (Q x)} (l : list A)
    (a : A) :
  (forall x, x ∈ l -> P x -> Q x) -> a ∈ l -> Q a -> ~ P a ->
  length (filter P l) < length (filter Q l).
Proof.
  induction l as [| x l IH]; intros HPQ Ha HQ HP;
    [by apply elem_of_nil in Ha |].
  rewrite !filter_cons.
  assert (HPQ' : forall y, y ∈ l -> P y -> Q y)
    by (intros; apply HPQ; [by right | done]).
  pose proof (filter_length_mono P Q l HPQ').
  apply elem_of_cons in Ha as [<- | Ha].
  - rewrite decide_False, decide_True by done. simpl. lia.
  - specialize (IH HPQ' Ha HQ HP).
    destruct (decide (P x)) as [HPx | HPx].
    + rewrite decide_True by (apply HPQ; [by left | done]). simpl. lia.
    + destruct (decide (Q x)); simpl; lia.
Qed.

Lemma rank_spec_gt (a b : float64) (allRates : list float64) :
  a ∈ allRates -> gtb a b = true ->
  (rank_spec a allRates < rank_spec b allRates)%Z.
Proof.
  intros Ha Hab. unfold rank_spec.
  enough (length (filter (fun r => gtb r a = true) allRates)
          < length (filter (fun r => gtb r b = true) allRates)) by lia.
  apply (filter_length_lt _ _ _ a); [| done | done |].
  - intros r _ Hr. by apply gtb_trans with a.
  - by rewrite gtb_irrefl.
Qed.

Lemma rank_spec_tie (a b : float64) (allRates : list float64) :
  SFeqb a b = true -> rank_spec a allRates = rank_spec b allRates.
Proof.
  intros Hab. unfold rank_spec. do 3 f_equal.
  apply list_filter_iff. intros r. by rewrite (gtb_eqb_r r a b).
Qed.

Lemma select_elem_of {A : Type} (l : list A) (mask : list bool) (x : A) :
  x ∈ select l mask -> x ∈ l.
Proof.
  revert mask. induction l as [| y l IH]; intros [| b mask] Hx;
    cbn [select] in Hx; try (by apply elem_of_nil in Hx).
  destruct b.
  - apply elem_of_cons in Hx as [-> | Hx]; [by left | right; eauto].
  - right. eauto.
Qed.

(** The selected governorate is a row of the table. *)
Lemma gov_info_elem_of (gov_data : DataFrame) (selected_gov : string)
    (info : row) :
  gov_info gov_data selected_gov = Ok info -> info ∈ rows gov_data.
Proof.
  unfold gov_info. destruct (getitem gov_data "Name") as [names | e];
    [| discriminate]. cbn [mbind exc_bind].
  destruct (select _ _) as [| r l] eqn:Hsel; [discriminate |].
  intros [= <-].
  apply (select_elem_of _ ((fun v => eq_str v selected_gov) <$> names)).
  rewrite Hsel. by left.
Qed.

(** C3: over a float64 rate column, the rank shown for a governorate is
    one plus the number of rates strictly greater than its own; of two
    governorates of the table the one with the greater rate has the
    smaller rank, and equal rates have equal ranks. *)
Theorem rank_counts_greater_rates (gov_data : DataFrame)
    (allRates : list float64) :
  numeric gov_data "Poverty_Rate" = Ok allRates ->
  (forall (gov_info : row) (rate : float64),
     cell gov_info "Poverty_Rate" = VNum rate ->
     rank gov_data gov_info = Ok (rank_spec rate allRates)) /\
  (forall (selected_gov : string) (info : row),
     gov_info gov_data selected_gov = Ok info ->
     rank gov_data info
     = Ok (rank_spec (num_cell "Poverty_Rate" info) allRates)) /\
  (forall A B : row,
     A ∈ rows gov_data -> B ∈ rows gov_data ->
     exists rankA rankB : Z,
       rank gov_data A = Ok rankA /\ rank gov_data B = Ok rankB /\
       (gtb (num_cell "Poverty_Rate" A) (num_cell "Poverty_Rate" B) = true ->
        (rankA < rankB)%Z) /\
       (SFeqb (num_cell "Poverty_Rate" A) (num_cell "Poverty_Rate" B) = true ->
        rankA = rankB)).
Proof.
  intros Hnum.
  assert (Hrank : forall (gov_info : row) (rate : float64),
     cell gov_info "Poverty_Rate" = VNum rate ->
     rank gov_data gov_info = Ok (rank_spec rate allRates)).
  { intros gov_info rate Hcell. unfold rank. rewrite Hnum, Hcell. simpl.
    rewrite sum_bool_filter. unfold rank_spec. f_equal. lia. }
  split; [done |].
  apply numeric_Ok in Hnum as (_ & HF & ->).
  rewrite Forall_forall in HF. split.
  { intros selected_gov info Hinfo. apply gov_info_elem_of in Hinfo.
    by apply Hrank, HF. }
  intros A B HA HB.
  set (allRates := num_cell "Poverty_Rate" <$> rows gov_data) in *.
  exists (rank_spec (num_cell "Poverty_Rate" A) allRates),
    (rank_spec (num_cell "Poverty_Rate" B) allRates).
  split; [by apply Hrank, HF |]. split; [by apply Hrank, HF |]. split.
  - apply rank_spec_gt. by apply list_elem_of_fmap_2.
  - apply rank_spec_tie.
Qed.

(** ** Enrichment *)

Lemma elem_of_with_column (cols : list string) (c d : string) :
  d ∈ with_column cols c <-> d ∈ cols \/ d = c.
Proof.
  unfold with_column. destruct (decide (c ∈ cols)).
  - split; [tauto | intros [? | ->]; done].
  - rewrite elem_of_app, list_elem_of_singleton. tauto.
Qed.

Lemma elem_of_renamed (raw : DataFrame) (old new d : string) :
  d ∈ columns (rename raw old new) <->
  (d ∈ columns raw /\ d <> old) \/ (d = new /\ old ∈ columns raw).
Proof.
  simpl. rewrite list_elem_of_fmap. split.
  - intros (c & -> & Hc). destruct (decide (c = old)) as [-> | Hne]; tauto.
  - intros [[Hd Hne] | [-> Hold]].
    + exists d. by rewrite decide_False.
    + exists old. by rewrite decide_True.
Qed.

Lemma zip_with_fmap_same {A B C : Type} (f : A -> B -> C) (g : A -> B)
    (l : list A) :
  zip_with f l (g <$> l) = (fun x => f x (g x)) <$> l.
Proof.
  induction l as [| x l IH]; [done |]. rewrite !fmap_cons. simpl. by f_equal.
Qed.

Lemma one_name_column_once (raw : DataFrame) :
  one_name_column raw -> relabelled_twice raw "Governorate" "Name" = false.
Proof.
  intros H. unfold relabelled_twice. apply bool_decide_eq_false_2.
  destruct H as [[? ?] | [? ?]]; tauto.
Qed.

Lemma enrich_governorates_Ok (raw : DataFrame) :
  one_name_column raw ->
  enrich_governorates raw =
    Ok (mkDataFrame (enriched_columns raw) (enrich_row <$> rows raw)).
Proof.
  intros Hcol. unfold enrich_governorates, getitem_map.
  rewrite one_name_column_once by done.
  set (df1 := rename raw "Governorate" "Name").
  set (df2 := setitem_scalar df1 "Type" (VStr "Gouvernorat")).
  assert (Hname : "Name" ∈ columns df2).
  { simpl. apply elem_of_with_column. left. apply elem_of_renamed.
    destruct Hcol as [[HG HN] | [HG HN]]; [by right |].
    left. split; [done | done]. }
  unfold getitem. rewrite decide_True by done. subst df2 df1. simpl.
  unfold setitem. simpl.
  rewrite decide_True by (by rewrite !length_fmap).
  f_equal. unfold enriched_columns. f_equal.
  rewrite <- (list_fmap_compose (fun r : row => cell r "Name")).
  rewrite zip_with_fmap_same. rewrite <- !list_fmap_compose. reflexivity.
Qed.

(** The placeholder adds no row. *)
Lemma rows_concat_delegations (df : DataFrame) :
  rows (concat df df_delegations) = rows df.
Proof.
  unfold concat. cbn [rows df_delegations empty_frame]. apply app_nil_r.
Qed.

Lemma enrich_Ok (raw : DataFrame) :
  one_name_column raw ->
  enrich raw =
    Ok (concat (mkDataFrame (enriched_columns raw) (enrich_row <$> rows raw))
          df_delegations).
Proof. intros H. unfold enrich. by rewrite enrich_governorates_Ok. Qed.


(** A source with both labels has the label Name twice once renamed. *)
Lemma enrich_TypeError (raw : DataFrame) :
  "Governorate" ∈ columns raw -> "Name" ∈ columns raw ->
  enrich raw = Raise TypeError.
Proof.
  intros HG HN.
  unfold enrich, enrich_governorates, relabelled_twice, getitem, getitem_map.
  rewrite bool_decide_eq_true_2 by done.
  rewrite decide_True; [done |].
  cbn [columns setitem_scalar]. apply elem_of_with_column. left.
  apply elem_of_renamed. left. by split.
Qed.

(** The name and the region of an enriched row. *)
Lemma enrich_row_cells (r : row) :
  r !! "Name" = None ->
  cell (enrich_row r) "Name" = cell r "Governorate" /\
  cell (enrich_row r) "Region" = map_dict region_map (cell r "Governorate") /\
  cell (enrich_row r) "Type" = VStr "Gouvernorat".
Proof.
  intros HN. unfold enrich_row, cell.
  assert (Hname :
    <["Type" := VStr "Gouvernorat"]> (rename_key "Governorate" "Name" r)
      !! "Name" = r !! "Governorate").
  { rewrite lookup_insert_ne by done. unfold rename_key.
    destruct (r !! "Governorate") as [v |] eqn:HG.
    - by rewrite lookup_insert_eq.
    - by rewrite HN. }
  rewrite lookup_insert_ne by done. rewrite Hname.
  rewrite lookup_insert_eq.
  rewrite (lookup_insert_ne _ "Region" "Type") by done.
  by rewrite lookup_insert_eq.
Qed.

Lemma well_formed_lookup_None (df : DataFrame) (r : row) (c : string) :
  well_formed df -> r ∈ rows df -> c ∉ columns df -> r !! c = None.
Proof.
  intros Hwf Hr Hc. unfold well_formed in Hwf. rewrite Forall_forall in Hwf.
  specialize (Hwf r Hr). apply not_elem_of_dom. intros Hd.
  apply Hwf in Hd. by apply elem_of_list_to_set in Hd.
Qed.

(** C1, as the spec states it, fails: a source that names the unknown
    governorate Atlantis is enriched without any error, and its row comes
    back with a missing region. *)
Lemma enrich_unmapped_name_gives_null_region :
  region_map !! "Atlantis" = None /\
  getitem unmapped_raw "Governorate" = Ok [VStr "Tunis"; VStr "Atlantis"] /\
  exists df : DataFrame,
    enrich unmapped_raw = Ok df /\
    getitem df "Name" = Ok [VStr "Tunis"; VStr "Atlantis"] /\
    getitem df "Region" = Ok [VStr "Grand Tunis"; NaN].
Proof.
  split; [by vm_compute |]. split; [by vm_compute |].
  eexists. split; [vm_compute; reflexivity |].
  split; vm_compute; reflexivity.
Qed.

(** C1 (amended): enrichment has no unmapped-region failure. For every
    source table with a governorate-name column the load succeeds, keeps
    every row in order, and gives a row the region that [region_map]
    holds for its name; a row whose name is not a key of [region_map]
    is kept with a missing (NaN) region. *)
Theorem enrich_unmapped_region_is_missing (raw : DataFrame) :
  well_formed raw ->
  "Governorate" ∈ columns raw -> "Name" ∉ columns raw ->
  exists df : DataFrame,
    enrich raw = Ok df /\
    (forall geo : GeoJSON,
       load_data (Content raw) (Content geo) = Ok (Data df geo)) /\
    Forall2
      (fun r r' : row =>
         cell r' "Name" = cell r "Governorate" /\
         forall name : string,
           cell r "Governorate" = VStr name ->
           match region_map !! name with
           | Some region => cell r' "Region" = VStr region
           | None => cell r' "Region" = NaN
           end)
      (rows raw) (rows df).
Proof.
  intros Hwf HG HN. eexists. split; [apply enrich_Ok; by left |].
  split.
  - intros geo. unfold load_data, load_body. simpl.
    rewrite enrich_Ok by (by left). reflexivity.
  - rewrite rows_concat_delegations. cbn [rows].
    apply Forall2_fmap_r, Forall_Forall2_diag.
    apply Forall_forall. intros r Hr.
    destruct (enrich_row_cells r) as (Hn & Hreg & _).
    { by apply (well_formed_lookup_None raw). }
    split; [done |]. intros name Hname. rewrite Hreg, Hname.
    unfold map_dict. by destruct (region_map !! name).
Qed.

(** ** The regions of an enriched table *)

(** The regions [region_map] assigns are the regions of the summary. *)
Lemma region_map_img :
  (map_img region_map : gset string) = list_to_set region_summary.Région.
Proof. vm_compute. reflexivity. Qed.

Lemma getitem_Ok (df : DataFrame) (c : string) (s : list value) :
  getitem df c = Ok s <->
  c ∈ columns df /\ s = (fun r : row => cell r c) <$> rows df.
Proof.
  unfold getitem. destruct (decide (c ∈ columns df)).
  - split; [intros [= <-]; done | intros [_ ->]; done].
  - split; [discriminate | tauto].
Qed.

Lemma getitem_enriched_Region (raw : DataFrame) :
  getitem
    (concat (mkDataFrame (enriched_columns raw) (enrich_row <$> rows raw))
       df_delegations) "Region"
  = Ok ((fun r : row => cell (enrich_row r) "Region") <$> rows raw).
Proof.
  apply getitem_Ok. split.
  - unfold concat. cbn [columns]. apply elem_of_app. left.
    unfold enriched_columns. apply elem_of_with_column. by right.
  - rewrite rows_concat_delegations. cbn [rows].
    by rewrite <- list_fmap_compose.
Qed.

(** C2: for a source whose governorate names are exactly the keys of
    [region_map], the load succeeds, every row gets a region, and the set
    of regions of the enriched table is the set of region names of the
    regional summary table, a set of seven names. *)
Theorem enriched_regions_match_summary (raw : DataFrame)
    (names : list string) (geo : GeoJSON) :
  well_formed raw -> "Name" ∉ columns raw ->
  getitem raw "Governorate" = Ok (VStr <$> names) ->
  (list_to_set names : gset string) = dom region_map ->
  exists (df : DataFrame) (regions : list string),
    load_data (Content raw) (Content geo) = Ok (Data df geo) /\
    getitem df "Region" = Ok (VStr <$> regions) /\
    (list_to_set regions : gset string)
      = list_to_set region_summary.Région /\
    size (list_to_set regions : gset string) = 7.
Proof.
  intros Hwf HN Hcol Hnames.
  apply getitem_Ok in Hcol as [HG Hcol].
  exists (concat (mkDataFrame (enriched_columns raw) (enrich_row <$> rows raw))
            df_delegations), (region_of <$> names).
  assert (Hset : (list_to_set (region_of <$> names) : gset string)
                 = list_to_set region_summary.Région).
  { rewrite <- region_map_img. apply set_eq. intros R.
    rewrite elem_of_list_to_set, list_elem_of_fmap, elem_of_map_img. split.
    - intros (n & -> & Hn).
      assert (Hd : n ∈ dom region_map)
        by (rewrite <- Hnames; by apply elem_of_list_to_set).
      apply elem_of_dom in Hd as [R HR]. exists n.
      unfold region_of. by rewrite HR.
    - intros [n HR]. exists n. unfold region_of. rewrite HR. split; [done |].
      apply (elem_of_list_to_set (C := gset string)). rewrite Hnames.
      by apply elem_of_dom. }
  split; [| split; [| split]].
  - unfold load_data, load_body. cbn [read_csv json_load mbind exc_bind].
    rewrite enrich_Ok by (by left). reflexivity.
  - rewrite getitem_enriched_Region. f_equal.
    rewrite <- list_fmap_compose.
    assert (Hregion : forall r : row, r ∈ rows raw ->
              cell (enrich_row r) "Region"
              = map_dict region_map (cell r "Governorate")).
    { intros r Hr. apply enrich_row_cells.
      by apply (well_formed_lookup_None raw). }
    transitivity (map_dict region_map
                    <$> ((fun r : row => cell r "Governorate") <$> rows raw)).
    { rewrite <- list_fmap_compose. apply list_fmap_ext.
      intros i r Hi. apply Hregion. by apply list_elem_of_lookup_2 in Hi. }
    rewrite <- Hcol, <- list_fmap_compose. apply list_fmap_ext.
    intros i n Hi. apply list_elem_of_lookup_2 in Hi.
    assert (Hd : n ∈ dom region_map)
      by (rewrite <- Hnames; by apply elem_of_list_to_set).
    apply elem_of_dom in Hd as [R HR].
    unfold region_of, map_dict. cbn [compose]. by rewrite HR.
  - done.
  - rewrite Hset. vm_compute. reflexivity.
Qed.

(** ** Failures of the load *)




(** ** The delegation placeholder *)

(** C8, as the spec states it, fails on the schema: the placeholder has
    the rate column, and a Governorate column that an enriched governorate
    row does not have. *)
Lemma df_delegations_has_rate_column :
  "Poverty_Rate" ∈ columns df_delegations /\
  "Governorate" ∈ columns df_delegations /\
  (exists g : DataFrame,
     enrich_governorates source_schema = Ok g /\
     columns g = ["Name"; "Poverty_Rate"; "Type"; "Region"]) /\
  (list_to_set (columns df_delegations) : gset string)
    <> list_to_set ["Name"; "Type"; "Region"].
Proof.
  split; [by vm_compute; set_solver |].
  split; [by vm_compute; set_solver |].
  split; [eexists; split; vm_compute; reflexivity |].
  intros H.
  assert (Hin : "Poverty_Rate" ∈ (list_to_set (columns df_delegations)
                                   : gset string))
    by (apply elem_of_list_to_set; vm_compute; set_solver).
  rewrite H in Hin. apply elem_of_list_to_set in Hin.
  repeat (apply elem_of_cons in Hin as [[=] | Hin]).
  by apply elem_of_nil in Hin.
Qed.

Lemma enriched_columns_spec (raw : DataFrame) (c : string) :
  c ∈ enriched_columns raw <->
  (c ∈ columns raw /\ c <> "Governorate") \/
  (c = "Name" /\ "Governorate" ∈ columns raw) \/
  c = "Type" \/ c = "Region".
Proof.
  unfold enriched_columns. rewrite !elem_of_with_column, elem_of_renamed.
  tauto.
Qed.

(** C8 (amended): the placeholder has no rows and adds none to the
    output. Its schema is Name, Governorate, Region, Poverty_Rate, Type:
    for a source with the columns Governorate and Poverty_Rate (and no
    Name column, with which the load fails), these are the Name, Region
    and Type of a governorate row, the rate column as well, and a
    Governorate column that the governorate rows do not have and that the
    output gains. *)
Theorem df_delegations_empty_with_rate (raw : DataFrame) :
  "Governorate" ∈ columns raw -> "Name" ∉ columns raw ->
  "Poverty_Rate" ∈ columns raw ->
  rows df_delegations = [] /\
  columns df_delegations
    = ["Name"; "Governorate"; "Region"; "Poverty_Rate"; "Type"] /\
  exists g : DataFrame,
    enrich_governorates raw = Ok g /\
    rows (concat g df_delegations) = rows g /\
    (forall c : string,
       c ∈ columns df_delegations <->
       c = "Governorate" \/
       (c ∈ columns g /\ c ∈ ["Name"; "Region"; "Poverty_Rate"; "Type"])) /\
    ("Governorate" ∉ columns g) /\
    columns (concat g df_delegations) = (columns g ++ ["Governorate"])%list.
Proof.
  intros HG HN HP. split; [reflexivity |]. split; [reflexivity |].
  eexists. split; [apply enrich_governorates_Ok; by left |].
  split; [apply rows_concat_delegations |].
  assert (Hno : "Governorate" ∉ enriched_columns raw).
  { rewrite enriched_columns_spec. intros [[_ ?] | [[[=] _] | [[=] | [=]]]].
    done. }
  assert (Hin : forall c, c ∈ ["Name"; "Region"; "Poverty_Rate"; "Type"] ->
                          c ∈ enriched_columns raw).
  { intros c Hc. rewrite enriched_columns_spec.
    repeat (apply elem_of_cons in Hc as [-> | Hc]); [tauto | tauto | | tauto |].
    - left. by split.
    - by apply elem_of_nil in Hc. }
  cbn [columns]. split; [| split; [done |]].
  - intros c. cbn [df_delegations empty_frame columns]. split.
    + intros Hc. repeat (apply elem_of_cons in Hc as [-> | Hc]).
      all: try (by left); try (by apply elem_of_nil in Hc).
      all: right; split; [apply Hin |]; set_solver.
    + intros [-> | [_ Hc]]; set_solver.
  - unfold concat. cbn [columns df_delegations empty_frame]. f_equal.
    rewrite !filter_cons, filter_nil.
    rewrite decide_False by (intros H; apply H, Hin; set_solver).
    rewrite decide_True by done.
    rewrite !decide_False by (intros H; apply H, Hin; set_solver).
    reflexivity.
Qed.

(** ** Member lists against the region map *)

(** C10 fails on the table's own data: the member list of Nord-Ouest
    names Seliana where [region_map] has Siliana, and the list of Sud-Est
    names Médenine where [region_map] has Medenine, so that these two
    governorates appear in no member list; the other five lists are the
    governorates that [region_map] sends to their region. *)
Lemma region_summary_members_mismatch :
  (fun r => (Région r, member_names r)) <$> df_regions =
    [("Grand Tunis", ["Tunis"; "Ariana"; "Ben Arous"; "Manouba"]);
     ("Nord-Est", ["Nabeul"; "Zaghouan"; "Bizerte"]);
     ("Nord-Ouest", ["Beja"; "Jendouba"; "Le Kef"; "Seliana"]);
     ("Centre-Est", ["Sousse"; "Monastir"; "Mahdia"; "Sfax"]);
     ("Centre-Ouest", ["Kairouan"; "Kasserine"; "Sidi Bouzid"]);
     ("Sud-Est", ["Gabes"; "Médenine"; "Tataouine"]);
     ("Sud-Ouest", ["Gafsa"; "Tozeur"; "Kebili"])] /\
  members "Nord-Ouest" = ["Beja"; "Jendouba"; "Le Kef"; "Siliana"] /\
  members "Sud-Est" = ["Gabes"; "Medenine"; "Tataouine"] /\
  filter (fun r => member_names r <> members (Région r)) df_regions
    = filter (fun r => Région r = "Nord-Ouest" \/ Région r = "Sud-Est")
        df_regions /\
  region_map !! "Siliana" = Some "Nord-Ouest" /\
  region_map !! "Medenine" = Some "Sud-Est" /\
  Forall
    (fun r => ("Siliana" ∉ member_names r) /\ ("Medenine" ∉ member_names r))
    df_regions.
Proof.
  split; [vm_compute; reflexivity |].
  split; [vm_compute; reflexivity |].
  split; [vm_compute; reflexivity |].
  split; [vm_compute; reflexivity |].
  split; [vm_compute; reflexivity |].
  split; [vm_compute; reflexivity |].
  apply (bool_decide_unpack _). vm_compute. exact I.
Qed.

(** ** The choropleth's frame and the canonical table *)

Section StoreRuns.

Import Store.

Implicit Types (σ : gmap nat DataFrame) (p : nat) (df : DataFrame).

Lemma bind_run {A B : Type} (c : M A) (k : A -> M B) σ :
  (c ≫= k) σ =
    match c σ with
    | (Ok a, σ') => k a σ'
    | (Raise e, σ') => (Raise e, σ')
    end.
Proof. reflexivity. Qed.

Lemma column_run p (c : string) σ df :
  σ !! p = Some df -> column p c σ = (getitem df c, σ).
Proof. intros Hp. unfold column, bind, deref, lift. by rewrite Hp. Qed.

Lemma masked_run p (mask : list bool) σ df :
  σ !! p = Some df ->
  masked p mask σ
  = (Ok (fresh (dom σ)), <[fresh (dom σ) := getitem_mask df mask]> σ).
Proof. intros Hp. unfold masked, bind, deref, new. by rewrite Hp. Qed.

Lemma copy_run p σ df :
  σ !! p = Some df ->
  copy p σ = (Ok (fresh (dom σ)), <[fresh (dom σ) := df]> σ).
Proof. intros Hp. unfold copy, bind, deref, new. by rewrite Hp. Qed.

Lemma assign_run p (c : string) (vs : list value) σ df :
  σ !! p = Some df ->
  assign p c vs σ =
    match setitem df c vs with
    | Ok df' => (Ok tt, <[p := df']> σ)
    | Raise e => (Raise e, σ)
    end.
Proof.
  intros Hp. unfold assign, bind, deref, lift. rewrite Hp. cbn [default].
  by destruct (setitem _ _ _).
Qed.

(** A new object does not disturb the objects that exist. *)
Lemma lookup_insert_fresh σ p df (d : DataFrame) :
  σ !! p = Some d -> <[fresh (dom σ) := df]> σ !! p = Some d.
Proof.
  intros Hp. rewrite lookup_insert_ne; [done |]. intros <-.
  apply (is_fresh (dom σ)). apply elem_of_dom. eauto.
Qed.

End StoreRuns.

Lemma setitem_fmap (df : DataFrame) (c : string) (g : row -> value) :
  setitem df c (g <$> rows df)
  = Ok (mkDataFrame (with_column (columns df) c)
          ((fun r : row => <[c := g r]> r) <$> rows df)).
Proof.
  unfold setitem. rewrite decide_True by (by rewrite length_fmap).
  by rewrite zip_with_fmap_same.
Qed.

(** The run of the rendering step, written out. *)
Lemma gov_data_for_map_run (σ : gmap nat DataFrame) (p : nat)
    (df filtered : DataFrame) :
  σ !! p = Some df ->
  gov_data df = Ok filtered ->
  let σ1 := <[fresh (dom σ) := filtered]> σ in
  let q := fresh (dom σ1) in
  gov_data_for_map p σ =
    if decide ("Name" ∈ columns df)
    then (Ok q, <[q := map_view filtered]> (<[q := filtered]> σ1))
    else (Raise (KeyError "Name"), <[q := filtered]> σ1).
Proof.
  intros Hp Hgov σ1 q. unfold gov_data in Hgov.
  destruct (getitem df "Type") as [types | e] eqn:Htypes; [| discriminate].
  injection Hgov as Hgov.
  unfold gov_data_for_map.
  rewrite bind_run, (column_run _ _ _ _ Hp), Htypes. cbv beta iota.
  rewrite bind_run, (masked_run _ _ _ _ Hp), Hgov. cbv beta iota.
  fold σ1.
  assert (H1 : σ1 !! fresh (dom σ) = Some filtered) by apply lookup_insert_eq.
  rewrite bind_run, (copy_run _ _ _ H1). cbv beta iota. fold σ1 q.
  set (σ2 := <[q := filtered]> σ1).
  assert (H2 : σ2 !! q = Some filtered) by apply lookup_insert_eq.
  rewrite bind_run, (column_run _ _ _ _ H2).
  assert (Hcols : columns filtered = columns df) by (by rewrite <- Hgov).
  unfold getitem at 1. rewrite Hcols.
  destruct (decide ("Name" ∈ columns df)) as [HN | HN]; [| done].
  cbv beta iota.
  rewrite bind_run, (assign_run _ _ _ _ _ H2), setitem_fmap. cbv beta iota.
  set (f1 := mkDataFrame _ _).
  assert (H3 : <[q := f1]> σ2 !! q = Some f1) by apply lookup_insert_eq.
  rewrite bind_run, (column_run _ _ _ _ H3).
  assert (Hn1 : getitem f1 "Name"
                = Ok ((fun r : row => cell r "Name") <$> rows filtered)).
  { apply getitem_Ok. split.
    - apply elem_of_with_column. left. by rewrite Hcols.
    - unfold f1. cbn [rows]. rewrite <- list_fmap_compose.
      apply list_fmap_ext. intros i r _. unfold cell. cbn [compose].
      by rewrite lookup_insert_ne. }
  rewrite Hn1. cbv beta iota.
  rewrite bind_run, (assign_run _ _ _ _ _ H3).
  assert (Hset : setitem f1 "Name"
                   (replace_dict name_mapping
                      <$> ((fun r : row => cell r "Name") <$> rows filtered))
                 = Ok (map_view filtered)).
  { unfold setitem, f1. cbn [rows columns].
    rewrite decide_True by (by rewrite !length_fmap).
    f_equal. unfold map_view. f_equal.
    rewrite <- (list_fmap_compose (fun r : row => cell r "Name")).
    rewrite zip_with_fmap_l, zip_with_fmap_same. reflexivity. }
  rewrite Hset. cbv beta iota. unfold mret, store_ret, Store.ret.
  by rewrite insert_insert_eq.
Qed.

Lemma gov_data_for_map_run_KeyError (σ : gmap nat DataFrame) (p : nat)
    (df : DataFrame) (e : exn) :
  σ !! p = Some df -> gov_data df = Raise e ->
  gov_data_for_map p σ = (Raise e, σ).
Proof.
  intros Hp Hgov. unfold gov_data in Hgov.
  destruct (getitem df "Type") as [types | e'] eqn:Htypes; [discriminate |].
  injection Hgov as ->. unfold gov_data_for_map.
  by rewrite bind_run, (column_run _ _ _ _ Hp), Htypes.
Qed.

Lemma map_row_cells (r : row) :
  cell (map_row r) "display_name" = cell r "Name" /\
  cell (map_row r) "Name" = replace_dict name_mapping (cell r "Name") /\
  forall c : string,
    c <> "Name" -> c <> "display_name" -> map_row r !! c = r !! c.
Proof.
  unfold map_row, cell. split; [| split].
  - rewrite lookup_insert_ne by done. by rewrite lookup_insert_eq.
  - by rewrite lookup_insert_eq.
  - intros c H1 H2. by rewrite !lookup_insert_ne.
Qed.

(** C9: the rendering step leaves the canonical table as it was, along
    with every other frame of the store: the renaming to the boundary
    file's keys is written into a new frame (the copy of the governorate
    rows), whose rows keep the canonical name under [display_name]; a
    name that [name_mapping] does not list is handed on unchanged. *)
Theorem gov_data_for_map_keeps_canonical_table (σ : gmap nat DataFrame)
    (df_poverty : nat) (df : DataFrame) :
  σ !! df_poverty = Some df ->
  (gov_data_for_map df_poverty σ).2 !! df_poverty = Some df /\
  (forall (p : nat) (d : DataFrame),
     σ !! p = Some d -> (gov_data_for_map df_poverty σ).2 !! p = Some d) /\
  (forall filtered : DataFrame,
     gov_data df = Ok filtered -> "Name" ∈ columns df ->
     exists q : nat,
       (gov_data_for_map df_poverty σ).1 = Ok q /\
       q <> df_poverty /\ σ !! q = None /\
       (gov_data_for_map df_poverty σ).2 !! q = Some (map_view filtered)) /\
  (forall r : row,
     cell (map_row r) "display_name" = cell r "Name" /\
     cell (map_row r) "Name" = replace_dict name_mapping (cell r "Name") /\
     forall c : string,
       c <> "Name" -> c <> "display_name" -> map_row r !! c = r !! c) /\
  (forall name : string,
     name_mapping !! name = None ->
     replace_dict name_mapping (VStr name) = VStr name).
Proof.
  intros Hp.
  assert (Hframe : forall (p : nat) (d : DataFrame),
            σ !! p = Some d ->
            (gov_data_for_map df_poverty σ).2 !! p = Some d).
  { intros p d Hd. destruct (gov_data df) as [filtered | e] eqn:Hgov.
    - rewrite (gov_data_for_map_run σ df_poverty df filtered Hp Hgov).
      set (σ1 := <[fresh (dom σ) := filtered]> σ).
      assert (Hd1 : σ1 !! p = Some d) by (by apply lookup_insert_fresh).
      assert (Hd2 : <[fresh (dom σ1) := filtered]> σ1 !! p = Some d)
        by (by apply lookup_insert_fresh).
      destruct (decide _); cbn [snd]; [| done].
      rewrite insert_insert_eq. by apply lookup_insert_fresh.
    - by rewrite (gov_data_for_map_run_KeyError σ df_poverty df e Hp Hgov). }
  split; [by apply Hframe |]. split; [done |]. split; [| split].
  - intros filtered Hgov HN.
    rewrite (gov_data_for_map_run σ df_poverty df filtered Hp Hgov).
    set (σ1 := <[fresh (dom σ) := filtered]> σ).
    rewrite decide_True by done. cbn [fst snd].
    assert (Hq : σ1 !! fresh (dom σ1) = None)
      by (apply not_elem_of_dom, is_fresh).
    exists (fresh (dom σ1)). split; [done |].
    assert (Hq' : σ !! fresh (dom σ1) = None).
    { destruct (σ !! fresh (dom σ1)) as [d |] eqn:Hd; [| done].
      apply (lookup_insert_fresh σ _ filtered) in Hd. fold σ1 in Hd.
      by rewrite Hq in Hd. }
    split; [| split; [done |]].
    + intros Heq. rewrite Heq in Hq'. by rewrite Hp in Hq'.
    + by rewrite lookup_insert_eq.
  - apply map_row_cells.
  - intros name Hname. unfold replace_dict. by rewrite Hname.
Qed.

(** ** The largest and the smallest rates *)

Section SortFacts.

Context {A : Type} (before : A -> A -> bool).

(** [ok] marks the elements among which [before] is a strict order
    whose complement is transitive. *)
Variable ok : A -> Prop.

Hypothesis before_asym :
  forall x y, ok x -> ok y -> before x y = true -> before y x = false.

Hypothesis not_before_trans :
  forall x y z, ok x -> ok y -> ok z ->
    before y x = false -> before z y = false -> before z x = false.

Lemma insert_by_perm (x : A) (l : list A) : insert_by before x l ≡ₚ x :: l.
Proof.
  induction l as [| y l IH]; [done |]. cbn [insert_by].
  destruct (before y x); [| done]. rewrite IH. apply Permutation_swap.
Qed.

Lemma sort_by_perm (l : list A) : sort_by before l ≡ₚ l.
Proof.
  induction l as [| x l IH]; [done |]. cbn [sort_by foldr].
  fold (sort_by before l). by rewrite insert_by_perm, IH.
Qed.

Lemma insert_by_sorted (x : A) (l : list A) :
  ok x -> Forall ok l ->
  StronglySorted (in_order before) l ->
  StronglySorted (in_order before) (insert_by before x l).
Proof.
  intros Hx Hl Hs. induction l as [| y l IH]; cbn [insert_by].
  - repeat constructor.
  - apply Forall_cons in Hl as [Hy Hl].
    apply StronglySorted_cons in Hs as [Hyl Hs].
    destruct (before y x) eqn:Hyx.
    + apply StronglySorted_cons. split; [| by apply IH].
      rewrite insert_by_perm. constructor; [| done].
      unfold in_order. by apply before_asym.
    + apply StronglySorted_cons. split.
      * constructor; [done |]. rewrite Forall_forall in Hyl, Hl |- *.
        intros z Hz. unfold in_order.
        apply (not_before_trans x y z); auto. by apply Hyl.
      * by apply StronglySorted_cons.
Qed.

Lemma sort_by_sorted (l : list A) :
  Forall ok l -> StronglySorted (in_order before) (sort_by before l).
Proof.
  induction l as [| x l IH]; intros Hl; [constructor |].
  apply Forall_cons in Hl as [Hx Hl]. cbn [sort_by foldr].
  fold (sort_by before l). apply insert_by_sorted; [done | | by apply IH].
  by rewrite sort_by_perm.
Qed.

(** The first [n] of the sorted list against the rest. *)
Lemma take_sort_by (n : nat) (l : list A) :
  Forall ok l -> n <= length l ->
  length (take n (sort_by before l)) = n /\
  l ≡ₚ take n (sort_by before l) ++ drop n (sort_by before l) /\
  forall r e,
    r ∈ take n (sort_by before l) -> e ∈ drop n (sort_by before l) ->
    before e r = false.
Proof.
  intros Hl Hn. split; [| split].
  - apply length_take_le. by rewrite sort_by_perm.
  - by rewrite take_drop, sort_by_perm.
  - intros r e Hr He.
    apply (StronglySorted_app_1_elem_of (in_order before)
             (take n (sort_by before l)) (drop n (sort_by before l)));
      [| done | done].
    rewrite take_drop. by apply sort_by_sorted.
Qed.

End SortFacts.

Section FloatSelect.

Context {A : Type} (key : A -> float64).

Let number (x : A) : Prop := is_nan (key x) = false.

Lemma before_desc_number (x y : A) :
  number y -> before_desc key x y = gtb (key x) (key y).
Proof.
  unfold number, before_desc. intros ->. by rewrite andb_false_r, orb_false_r.
Qed.

Lemma before_asc_number (x y : A) :
  number y -> before_asc key x y = ltb (key x) (key y).
Proof.
  unfold number, before_asc. intros ->. by rewrite andb_false_r, orb_false_r.
Qed.

Lemma ltb_asym (x y : float64) : ltb x y = true -> ltb y x = false.
Proof.
  rewrite <- not_true_iff_false, !ltb_key. intros (_ & _ & H) (_ & _ & H').
  exact (key_lt_irrefl _ (key_lt_trans _ _ _ H H')).
Qed.

Lemma ltb_false_trans (x y z : float64) :
  is_nan y = false ->
  ltb x y = false -> ltb y z = false -> ltb x z = false.
Proof.
  intros Hy. rewrite <- !not_true_iff_false, !ltb_key.
  intros H1 H2 (Hx & Hz & H3).
  destruct (fkey x) as [[a b] c], (fkey y) as [[a' b'] c'],
    (fkey z) as [[a'' b''] c''].
  assert (~ key_lt (a, b, c) (a', b', c')) by tauto.
  assert (~ key_lt (a', b', c') (a'', b'', c'')) by tauto.
  simpl in *. lia.
Qed.

Lemma nlargest_rows (n : nat) (l : list A) :
  Forall number l -> n <= length l ->
  length (take n (sort_by (before_desc key) l)) = n /\
  l ≡ₚ take n (sort_by (before_desc key) l)
        ++ drop n (sort_by (before_desc key) l) /\
  forall r e,
    r ∈ take n (sort_by (before_desc key) l) ->
    e ∈ drop n (sort_by (before_desc key) l) ->
    geb (key r) (key e) = true.
Proof.
  intros Hl Hn.
  destruct (take_sort_by (before_desc key) number) with (n := n) (l := l)
    as (Hlen & Hperm & Hord); [| | done | done |].
  - intros x y Hx Hy. rewrite !before_desc_number by done.
    unfold gtb. apply ltb_asym.
  - intros x y z Hx Hy Hz. rewrite !before_desc_number by done.
    unfold gtb. intros H1 H2. by apply (ltb_false_trans _ (key y)).
  - split; [done |]. split; [done |]. intros r e Hr He.
    assert (Hall : Forall number (take n (sort_by (before_desc key) l)
                                  ++ drop n (sort_by (before_desc key) l)))
      by (by rewrite <- Hperm).
    apply Forall_app in Hall as [Ht Hd]. rewrite Forall_forall in Ht, Hd.
    apply geb_total; [by apply Ht | by apply Hd |].
    specialize (Hord r e Hr He).
    rewrite before_desc_number in Hord by (by apply Ht). exact Hord.
Qed.

Lemma nsmallest_rows (n : nat) (l : list A) :
  Forall number l -> n <= length l ->
  length (take n (sort_by (before_asc key) l)) = n /\
  l ≡ₚ take n (sort_by (before_asc key) l)
        ++ drop n (sort_by (before_asc key) l) /\
  forall r e,
    r ∈ take n (sort_by (before_asc key) l) ->
    e ∈ drop n (sort_by (before_asc key) l) ->
    leb (key r) (key e) = true.
Proof.
  intros Hl Hn.
  destruct (take_sort_by (before_asc key) number) with (n := n) (l := l)
    as (Hlen & Hperm & Hord); [| | done | done |].
  - intros x y Hx Hy. rewrite !before_asc_number by done. apply ltb_asym.
  - intros x y z Hx Hy Hz. rewrite !before_asc_number by done.
    intros H1 H2. by apply (ltb_false_trans _ (key y)).
  - split; [done |]. split; [done |]. intros r e Hr He.
    assert (Hall : Forall number (take n (sort_by (before_asc key) l)
                                  ++ drop n (sort_by (before_asc key) l)))
      by (by rewrite <- Hperm).
    apply Forall_app in Hall as [Ht Hd]. rewrite Forall_forall in Ht, Hd.
    change (geb (key e) (key r) = true).
    apply geb_total; [by apply Hd | by apply Ht |].
    specialize (Hord r e Hr He).
    rewrite before_asc_number in Hord by (by apply Ht). exact Hord.
Qed.

End FloatSelect.

(** With numbers for keys the sorted rows are in order of their keys. *)
Lemma sort_desc_sorted {A : Type} (key : A -> float64) (l : list A) :
  Forall (fun x => is_nan (key x) = false) l ->
  StronglySorted (fun x y => geb (key x) (key y) = true)
    (sort_by (before_desc key) l).
Proof.
  intros Hl.
  assert (Hs : StronglySorted (in_order (before_desc key))
                 (sort_by (before_desc key) l)).
  { apply (sort_by_sorted _ (fun x => is_nan (key x) = false)); [| | done].
    - intros x y Hx Hy. rewrite !before_desc_number by done.
      unfold gtb. apply ltb_asym.
    - intros x y z Hx Hy Hz. rewrite !before_desc_number by done.
      unfold gtb. intros H1 H2. by apply (ltb_false_trans _ (key y)). }
  assert (Hall : Forall (fun x => is_nan (key x) = false)
                   (sort_by (before_desc key) l))
    by (by rewrite sort_by_perm).
  induction Hs as [| x s Hs IH Hx]; [constructor |].
  apply Forall_cons in Hall as [Hnx Hall]. constructor; [by apply IH |].
  rewrite Forall_forall in Hx, Hall |- *. intros y Hy.
  apply geb_total; [done | by apply Hall |].
  specialize (Hx y Hy). unfold in_order in Hx.
  by rewrite before_desc_number in Hx.
Qed.

Lemma sort_asc_sorted {A : Type} (key : A -> float64) (l : list A) :
  Forall (fun x => is_nan (key x) = false) l ->
  StronglySorted (fun x y => leb (key x) (key y) = true)
    (sort_by (before_asc key) l).
Proof.
  intros Hl.
  assert (Hs : StronglySorted (in_order (before_asc key))
                 (sort_by (before_asc key) l)).
  { apply (sort_by_sorted _ (fun x => is_nan (key x) = false)); [| | done].
    - intros x y Hx Hy. rewrite !before_asc_number by done. apply ltb_asym.
    - intros x y z Hx Hy Hz. rewrite !before_asc_number by done.
      intros H1 H2. by apply (ltb_false_trans _ (key y)). }
  assert (Hall : Forall (fun x => is_nan (key x) = false)
                   (sort_by (before_asc key) l))
    by (by rewrite sort_by_perm).
  induction Hs as [| x s Hs IH Hx]; [constructor |].
  apply Forall_cons in Hall as [Hnx Hall]. constructor; [by apply IH |].
  rewrite Forall_forall in Hx, Hall |- *. intros y Hy.
  change (geb (key y) (key x) = true).
  apply geb_total; [by apply Hall | done |].
  specialize (Hx y Hy). unfold in_order in Hx.
  by rewrite before_asc_number in Hx.
Qed.

Lemma cell_restrict (cs : list string) (r : row) (c : string) :
  c ∈ cs -> cell (restrict cs r) c = cell r c.
Proof.
  intros Hc. unfold cell, restrict. destruct (r !! c) as [v |] eqn:Hr.
  - by rewrite (map_lookup_filter_Some_2 _ r c v).
  - by rewrite map_lookup_filter_None_2 by (by left).
Qed.

Lemma getitem_columns_Ok (df : DataFrame) (cs : list string) :
  Forall (fun c => c ∈ columns df) cs ->
  getitem_columns df cs = Ok (mkDataFrame cs (restrict cs <$> rows df)).
Proof.
  intros Hcs. unfold getitem_columns.
  assert (Hnone : filter (fun c => c ∉ columns df) cs = []).
  { induction Hcs as [| c cs Hc Hcs IH]; [done |].
    rewrite filter_cons. by rewrite decide_False by (by intros H; apply H). }
  by rewrite Hnone.
Qed.

Lemma forallb_number (rates : list float64) :
  forallb (fun x => negb (is_nan x)) rates = true ->
  Forall (fun x => is_nan x = false) rates.
Proof.
  rewrite forallb_forall, Forall_forall. intros H x Hx.
  apply negb_true_iff, H. by apply list_elem_of_In.
Qed.

(** C6: over a rate column of numbers and for [n] up to the number of
    rows, [nlargest] returns exactly [n] rows of the table, and the rate
    of each is greater than or equal to the rate of every row it leaves
    out; [nsmallest] returns exactly [n] rows whose rates are smaller
    than or equal to the rate of every row it leaves out. The tables of
    the page, [top5_poor] and [top5_rich], are these selections for
    [n = 5] with the name, rate and region of each row. *)
Theorem nlargest_nsmallest_select (gov_data : DataFrame) (n : nat)
    (rates : list float64) :
  numeric gov_data "Poverty_Rate" = Ok rates ->
  forallb (fun x => negb (is_nan x)) rates = true ->
  n <= length (rows gov_data) ->
  exists (top bottom : DataFrame) (rest_top rest_bottom : list row),
    nlargest n "Poverty_Rate" gov_data = Ok top /\
    nsmallest n "Poverty_Rate" gov_data = Ok bottom /\
    length (rows top) = n /\ length (rows bottom) = n /\
    rows gov_data ≡ₚ rows top ++ rest_top /\
    rows gov_data ≡ₚ rows bottom ++ rest_bottom /\
    (forall r e : row,
       r ∈ rows top -> e ∈ rest_top ->
       geb (num_cell "Poverty_Rate" r) (num_cell "Poverty_Rate" e) = true) /\
    (forall r e : row,
       r ∈ rows bottom -> e ∈ rest_bottom ->
       leb (num_cell "Poverty_Rate" r) (num_cell "Poverty_Rate" e) = true) /\
    (n = 5 -> "Name" ∈ columns gov_data -> "Region" ∈ columns gov_data ->
     exists t_poor t_rich : DataFrame,
       top5_poor gov_data = Ok t_poor /\ top5_rich gov_data = Ok t_rich /\
       rows t_poor
         = restrict ["Name"; "Poverty_Rate"; "Region"] <$> rows top /\
       rows t_rich
         = restrict ["Name"; "Poverty_Rate"; "Region"] <$> rows bottom /\
       length (rows t_poor) = 5 /\ length (rows t_rich) = 5).
Proof.
  intros Hnum Hnan Hn.
  pose proof (forallb_number _ Hnan) as Hnumber.
  pose proof Hnum as Hnum'. apply numeric_Ok in Hnum' as (Hcol & _ & ->).
  rewrite Forall_fmap in Hnumber.
  destruct (nlargest_rows (num_cell "Poverty_Rate") n (rows gov_data))
    as (Hlt & Hpt & Hot); [done | done |].
  destruct (nsmallest_rows (num_cell "Poverty_Rate") n (rows gov_data))
    as (Hlb & Hpb & Hob); [done | done |].
  eexists _, _, _, _.
  split; [unfold nlargest; rewrite Hnum; reflexivity |].
  split; [unfold nsmallest; rewrite Hnum; reflexivity |].
  cbn [rows]. do 6 (split; [eassumption |]).
  intros -> HN HR. unfold top5_poor, top5_rich, nlargest, nsmallest.
  rewrite Hnum. cbn [mbind exc_bind].
  rewrite !getitem_columns_Ok by (cbn [columns]; by repeat constructor).
  eexists _, _. split; [reflexivity |]. split; [reflexivity |].
  cbn [rows]. rewrite !length_fmap. done.
Qed.

(** ** Statistics by region *)

Lemma filter_all {A : Type} (P : A -> Prop) `{!forall x, Decision (P x)}
    (l : list A) :
  Forall P l -> filter P l = l.
Proof.
  induction 1 as [| x l Hx Hl IH]; [done |].
  by rewrite filter_cons, decide_True, IH.
Qed.

Lemma group_by_lookup (kvs : list (value * float64)) (R : string) :
  group_by kvs !! R =
    match (filter (fun kv => eq_str kv.1 R = true) kvs).*2 with
    | [] => None
    | l => Some l
    end.
Proof.
  induction kvs as [| [k v] kvs IH]; [done |].
  rewrite filter_cons. cbn [group_by fst].
  destruct k as [s | x]; cbn [eq_str].
  - destruct (decide (s = R)) as [-> | Hne].
    + rewrite bool_decide_eq_true_2 by done. rewrite decide_True by done.
      rewrite lookup_insert_eq, IH. rewrite fmap_cons. cbn [snd].
      by destruct ((filter _ kvs).*2).
    + rewrite bool_decide_eq_false_2 by done.
      rewrite decide_False by done. by rewrite lookup_insert_ne.
  - by rewrite decide_False.
Qed.

Lemma filter_zip_fmap {A : Type} (f : A -> value) (g : A -> float64)
    (R : string) (l : list A) :
  (filter (fun kv => eq_str kv.1 R = true) (zip (f <$> l) (g <$> l))).*2
  = g <$> filter (fun x => eq_str (f x) R = true) l.
Proof.
  induction l as [| x l IH]; [done |].
  rewrite !fmap_cons. cbn [zip zip_with]. rewrite !filter_cons. cbn [fst].
  destruct (decide (eq_str (f x) R = true)); [| done].
  rewrite !fmap_cons. cbn [snd]. by f_equal.
Qed.

Lemma stats_lookup (gov_data : DataFrame) (rates : list float64) :
  "Region" ∈ columns gov_data ->
  numeric gov_data "Poverty_Rate" = Ok rates ->
  exists t : gmap string Stats,
    stats gov_data = Ok t /\
    forall R : string,
      t !! R =
        match member_rates gov_data R with
        | [] => None
        | l => Some (round_stats (agg l))
        end.
Proof.
  intros HR Hnum. unfold stats, getitem. rewrite decide_True by done.
  cbn [mbind exc_bind]. rewrite Hnum. cbn [mbind exc_bind].
  eexists. split; [reflexivity |]. intros R.
  rewrite lookup_fmap, group_by_lookup.
  apply numeric_Ok in Hnum as (_ & _ & ->).
  rewrite filter_zip_fmap. fold (member_rates gov_data R).
  by destruct (member_rates gov_data R).
Qed.

Lemma round2_nan : Agg.round2 nan = nan.
Proof. reflexivity. Qed.

Lemma dropna_number (l : list float64) :
  Forall (fun x => is_nan x = false) (Agg.dropna l).
Proof.
  apply Forall_forall. intros x Hx. unfold Agg.dropna in Hx.
  by apply list_elem_of_filter in Hx as [Hx _].
Qed.

Lemma dropna_dropna (l : list float64) :
  Agg.dropna (Agg.dropna l) = Agg.dropna l.
Proof.
  unfold Agg.dropna. induction l as [| x l IH]; [done |].
  rewrite filter_cons. destruct (decide (is_nan x = false)) as [Hx | Hx].
  - by rewrite filter_cons, decide_True, IH.
  - done.
Qed.

(** *** The mean and the variance in exact arithmetic *)

Section Exact.

Local Open Scope Qc_scope.

Lemma Qc_of_nat_S (n : nat) : Qc_of_nat (S n) = Qc_of_nat n + 1.
Proof.
  unfold Qc_of_nat. apply Qc_is_canon. unfold Qcplus.
  rewrite Nat2Z.inj_succ. unfold Z.succ. rewrite inject_Z_plus.
  simpl. rewrite !Qred_correct. reflexivity.
Qed.

Lemma Qc_of_nat_pos (n : nat) : Qc_of_nat (S n) <> 0.
Proof.
  unfold Qc_of_nat. intros H. change 0 with (Q2Qc 0) in H.
  apply Q2Qc_eq_iff in H. unfold Qeq in H. cbn [Qnum Qden inject_Z] in H.
  lia.
Qed.

Lemma total_app (p q : list Qc) : total (p ++ q) = total p + total q.
Proof.
  unfold total. induction p as [| x p IH]; cbn [foldr app]; [ring |].
  rewrite IH. ring.
Qed.

Lemma sum_exact (q : list Qc) (s : Qc) :
  foldl (Agg.sum_step exact) (s, 0) q = (s + total q, 0).
Proof.
  revert s. induction q as [| v q IH]; intros s; cbn [foldl total foldr].
  - f_equal. ring.
  - replace (Agg.sum_step exact (s, 0) v) with (s + v, 0).
    + rewrite IH. f_equal. unfold total. ring.
    + unfold Agg.sum_step. cbn. f_equal; ring.
Qed.

Lemma mean_exact (q : list Qc) : Agg.mean_in exact q = mean_spec q.
Proof.
  unfold Agg.mean_in, Agg.sum_in, mean_spec. cbn [Agg.zero exact].
  rewrite sum_exact. cbn. f_equal. ring.
Qed.

Lemma var_step_moments (p : list Qc) (st : nat * Qc * Qc) (v : Qc) :
  moments p st -> moments (p ++ [v]) (Agg.var_step exact st v).
Proof.
  destruct st as [[n M] out]. intros (Hn & HM & HS).
  unfold Agg.var_step, moments.
  cbn [Agg.plus Agg.minus Agg.times Agg.quot Agg.of_count exact].
  pose proof (Qc_of_nat_pos n) as Hpos.
  rewrite fmap_app, !total_app, length_app.
  cbn [length fmap list_fmap total foldr].
  split; [lia |]. rewrite Qc_of_nat_S in *.
  assert (H1 : (Qc_of_nat n + 1) * (M + (v - M) / (Qc_of_nat n + 1))
               = total p + (v + 0)).
  { rewrite <- HM. field. exact Hpos. }
  split; [exact H1 |].
  rewrite HS. unfold sq.
  set (k := Qc_of_nat n) in *. set (M' := M + (v - M) / (k + 1)) in *.
  assert (Hv : v = (k + 1) * M' - k * M) by (rewrite H1, HM; ring).
  rewrite Hv. ring.
Qed.

Lemma foldl_moments (q p : list Qc) (st : nat * Qc * Qc) :
  moments p st -> moments (p ++ q) (foldl (Agg.var_step exact) st q).
Proof.
  revert p st. induction q as [| v q IH]; intros p st H; cbn [foldl].
  - by rewrite app_nil_r.
  - replace (p ++ v :: q)%list with ((p ++ [v]) ++ q)%list
      by (by rewrite <- app_assoc).
    apply IH. by apply var_step_moments.
Qed.

Lemma total_sq_dev (q : list Qc) (m : Qc) :
  total ((fun x => (x - m) * (x - m)) <$> q)
  = total (sq <$> q) - (1 + 1) * m * total q + Qc_of_nat (length q) * m * m.
Proof.
  induction q as [| x q IH].
  - cbn [fmap list_fmap total foldr length].
    change (Qc_of_nat 0) with 0. ring.
  - rewrite !fmap_cons. cbn [total foldr length].
    fold (total ((fun x => (x - m) * (x - m)) <$> q)).
    fold (total (sq <$> q)). fold (total q).
    rewrite IH, Qc_of_nat_S. unfold sq. ring.
Qed.

Lemma var_exact (q : list Qc) :
  Agg.var_in exact q =
    if (length q <=? 1)%nat then None else Some (sample_variance_spec q).
Proof.
  unfold Agg.var_in.
  pose proof (foldl_moments q [] (O, 0, 0)) as H. cbn [app] in H.
  change (Agg.zero exact) with 0.
  destruct (foldl (Agg.var_step exact) (O, 0, 0) q) as [[n M] out].
  destruct H as (Hn & HM & HS).
  { split; [done |]. cbn. split; ring. }
  subst n. destruct (length q <=? 1)%nat eqn:E; [done |].
  f_equal. unfold sample_variance_spec. cbn [Agg.quot Agg.of_count exact].
  f_equal. rewrite total_sq_dev.
  assert (Hm : mean_spec q = M).
  { unfold mean_spec. rewrite <- HM. field.
    destruct (length q); [done | apply Qc_of_nat_pos]. }
  rewrite Hm, HS, <- HM. ring.
Qed.

End Exact.

(** *** The order statistics *)

Lemma leb_refl (x : float64) : is_nan x = false -> leb x x = true.
Proof.
  intros Hx. apply leb_key. split; [done |]. split; [done |].
  apply key_lt_irrefl.
Qed.

Lemma ltb_leb (x y : float64) : ltb x y = true -> leb x y = true.
Proof.
  rewrite ltb_key, leb_key. intros (Hx & Hy & H).
  split; [done |]. split; [done |]. intros H'.
  exact (key_lt_irrefl _ (key_lt_trans _ _ _ H H')).
Qed.

Lemma leb_trans (x y z : float64) :
  leb x y = true -> leb y z = true -> leb x z = true.
Proof. intros H1 H2. exact (geb_trans z y x H2 H1). Qed.

Lemma not_ltb_leb (x y : float64) :
  is_nan x = false -> is_nan y = false -> ltb y x = false -> leb x y = true.
Proof. intros Hx Hy H. by apply (geb_total y x). Qed.

(** The running minimum of [min] ends on a least member. *)
Lemma min_least (x : float64) (l : list float64) :
  Forall (fun y => is_nan y = false) (x :: l) ->
  min_of (x :: l) (foldl (fun m y => if ltb y m then y else m) x l).
Proof.
  revert x. induction l as [| y l IH]; intros x HF.
  - apply Forall_cons in HF as [Hx _]. split; [set_solver |].
    constructor; [by apply leb_refl | constructor].
  - apply Forall_cons in HF as [Hx HF]. pose proof HF as HF'.
    apply Forall_cons in HF' as [Hy Hl]. cbn [foldl].
    set (a := if ltb y x then y else x).
    assert (Ha : is_nan a = false) by (subst a; by destruct (ltb y x)).
    assert (Hax : leb a x = true /\ leb a y = true).
    { subst a. destruct (ltb y x) eqn:E.
      - split; [by apply ltb_leb | by apply leb_refl].
      - split; [by apply leb_refl | by apply not_ltb_leb]. }
    destruct Hax as [Hax Hay].
    destruct (IH a) as [Hin Hle]; [by constructor |].
    apply Forall_cons in Hle as [Hra Hrl]. split.
    + apply elem_of_cons in Hin as [-> | Hin]; [| set_solver].
      subst a. destruct (ltb y x); set_solver.
    + constructor; [by apply (leb_trans _ a) |].
      constructor; [by apply (leb_trans _ a) | done].
Qed.

Lemma max_greatest (x : float64) (l : list float64) :
  Forall (fun y => is_nan y = false) (x :: l) ->
  max_of (x :: l) (foldl (fun m y => if gtb y m then y else m) x l).
Proof.
  revert x. induction l as [| y l IH]; intros x HF.
  - apply Forall_cons in HF as [Hx _]. split; [set_solver |].
    constructor; [by apply leb_refl | constructor].
  - apply Forall_cons in HF as [Hx HF]. pose proof HF as HF'.
    apply Forall_cons in HF' as [Hy Hl]. cbn [foldl].
    change (gtb y x) with (ltb x y).
    set (a := if ltb x y then y else x).
    assert (Ha : is_nan a = false) by (subst a; by destruct (ltb x y)).
    assert (Hax : leb x a = true /\ leb y a = true).
    { subst a. destruct (ltb x y) eqn:E.
      - split; [by apply ltb_leb | by apply leb_refl].
      - split; [by apply leb_refl | by apply not_ltb_leb]. }
    destruct Hax as [Hax Hay].
    destruct (IH a) as [Hin Hle]; [by constructor |].
    apply Forall_cons in Hle as [Hra Hrl]. split.
    + apply elem_of_cons in Hin as [-> | Hin]; [| set_solver].
      subst a. destruct (ltb x y); set_solver.
    + constructor; [by apply (leb_trans _ a) |].
      constructor; [by apply (leb_trans _ a) | done].
Qed.

Lemma median_dropna (l : list float64) :
  Agg.median (Agg.dropna l) = Agg.median l.
Proof. unfold Agg.median. by rewrite dropna_dropna. Qed.

(** [median] takes the middle of the members in ascending order. *)
Lemma median_middle (l : list float64) :
  l <> [] -> Forall (fun y => is_nan y = false) l ->
  median_of l (Agg.median l).
Proof.
  intros Hne HF. unfold median_of, Agg.median, Agg.dropna.
  rewrite filter_all by done. cbv zeta.
  set (s := sort_by (before_asc (fun x => x)) l).
  assert (Hperm : s ≡ₚ l) by apply sort_by_perm.
  exists s. split; [done |].
  split; [by apply (sort_asc_sorted (fun x => x)) |].
  assert (Hpos : 0 < length s).
  { rewrite Hperm. destruct l; [done | cbn; lia]. }
  assert (Hhalf : length s / 2 < length s) by (apply Nat.div_lt; lia).
  destruct (lookup_lt_is_Some_2 s (length s / 2) Hhalf) as [b Hb].
  rewrite Hb. cbn [default].
  destruct (Nat.even (length s)) eqn:E; [| done].
  destruct (lookup_lt_is_Some_2 s (length s / 2 - 1)) as [a Ha]; [lia |].
  exists a, b. rewrite Ha. cbn [default].
  split; [done |]. split; [done |].
  destruct (length s); [lia | done].
Qed.

(** C5, as the spec states it, fails: the table holds the statistics
    rounded to two decimals. For the rates 10, 10 and 11 the mean is
    31/3 = 10.333333333333334 and the table holds 10.33; the standard
    deviation is 0.5773502691896255 and the table holds 0.58. *)
Lemma stats_holds_rounded_values :
  member_rates scenario_thirds "R" = [of_Z 10; of_Z 10; of_Z 11] /\
  exists (t : gmap string Stats) (s : Stats),
    stats scenario_thirds = Ok t /\ t !! "R" = Some s /\
    Moyenne s = dec 1033 100 /\
    Moyenne s <> Agg.mean (member_rates scenario_thirds "R") /\
    Écart_type s = dec 58 100 /\
    Écart_type s <> Agg.std (member_rates scenario_thirds "R").
Proof.
  split; [vm_compute; reflexivity |].
  eexists _, _. split; [vm_compute; reflexivity |].
  split; [vm_compute; reflexivity |].
  split; [vm_compute; reflexivity |].
  split; [vm_compute; discriminate |].
  split; [vm_compute; reflexivity |].
  vm_compute; discriminate.
Qed.

(** The mean is the compensated one: for the rates 4.8, 2.1, 18.3 and
    4.1 the table holds 7.32, where the same rates added from left to
    right, without the compensation, give a mean that rounds to 7.33. *)
Lemma stats_mean_is_compensated :
  member_rates scenario_tenths "R"
    = [dec 48 10; dec 21 10; dec 183 10; dec 41 10] /\
  (exists (t : gmap string Stats) (s : Stats),
     stats scenario_tenths = Ok t /\ t !! "R" = Some s /\
     Moyenne s = dec 732 100) /\
  Agg.round2
    (div (foldl add (S754_zero false) (member_rates scenario_tenths "R"))
       (of_Z 4))
    = dec 733 100.
Proof.
  split; [vm_compute; reflexivity |]. split; [| vm_compute; reflexivity].
  eexists _, _. split; [vm_compute; reflexivity |].
  split; vm_compute; reflexivity.
Qed.

(** C5 (amended): over a float64 rate column that holds a number at
    least, [stats] has one row for each region that has a governorate and
    no other row; the row holds
    the mean, median, minimum, maximum and sample standard deviation of
    the rates of the region's governorates, missing rates left out, each
    rounded to two decimals. The minimum is the rounded rate of a
    governorate of the region that none is below, the maximum the one
    that none is above, the median the rounded middle of the rates in
    ascending order. The mean and the deviation are computed in binary64
    by the compensated sum and the one-pass variance, whose steps in
    exact arithmetic give the sum of the values over their count and the
    sum of the squared deviations from the mean over the count less one;
    the deviation is missing for a single rate. A region whose rates are
    all missing has a row of missing values. For A, B, C of region R at
    10, 20, 30 percent the row of R is mean 20.0, median 20.0, min 10.0,
    max 30.0 (and standard deviation 10.0). *)
Theorem stats_by_region_rounded (gov_data : DataFrame)
    (rates : list float64) :
  "Region" ∈ columns gov_data ->
  numeric gov_data "Poverty_Rate" = Ok rates ->
  existsb (fun x => negb (is_nan x)) rates = true ->
  (exists t : gmap string Stats,
     stats gov_data = Ok t /\
     (forall R : string,
        t !! R =
          match member_rates gov_data R with
          | [] => None
          | l =>
              Some
                (mkStats (Agg.round2 (Agg.mean l))
                   (Agg.round2 (Agg.median l)) (Agg.round2 (Agg.min l))
                   (Agg.round2 (Agg.max l)) (Agg.round2 (Agg.std l)))
          end) /\
     (forall (R : string) (s : Stats),
        t !! R = Some s ->
        match Agg.dropna (member_rates gov_data R) with
        | [] => s = mkStats nan nan nan nan nan
        | x :: l =>
            exists lo mid hi : float64,
              min_of (x :: l) lo /\ median_of (x :: l) mid /\
              max_of (x :: l) hi /\
              Min s = Agg.round2 lo /\ Médiane s = Agg.round2 mid /\
              Max s = Agg.round2 hi /\
              Moyenne s = Agg.round2 (Agg.mean_in Agg.binary64 (x :: l)) /\
              Écart_type s =
                Agg.round2
                  match Agg.var_in Agg.binary64 (x :: l) with
                  | Some v => sqrt v
                  | None => nan
                  end /\
              (l = [] -> Écart_type s = nan)
        end)) /\
  (forall q : list Qc,
     Agg.mean_in exact q = mean_spec q /\
     Agg.var_in exact q =
       if (length q <=? 1)%nat then None
       else Some (sample_variance_spec q)) /\
  stats scenario_ABC =
    Ok {[ "R" := mkStats (of_Z 20) (of_Z 20) (of_Z 10) (of_Z 30) (of_Z 10) ]}.
Proof.
  intros HR Hnum _.
  split; [| split; [| vm_compute; reflexivity]];
    [| intros q; split; [apply mean_exact | apply var_exact]].
  destruct (stats_lookup gov_data rates HR Hnum) as (t & Hstats & Hlookup).
  exists t. split; [done |]. split.
  - intros R. rewrite Hlookup. by destruct (member_rates gov_data R).
  - intros R s Hs. rewrite Hlookup in Hs.
    destruct (member_rates gov_data R) as [| m ms] eqn:Hmem; [done |].
    injection Hs as <-. set (L := m :: ms).
    pose proof (dropna_number L) as HF.
    destruct (Agg.dropna L) as [| x l] eqn:Hd.
    + unfold round_stats, agg, Agg.mean, Agg.median, Agg.min, Agg.max,
        Agg.std. cbn [Moyenne Médiane Min Max Écart_type].
      rewrite Hd. vm_compute. reflexivity.
    + exists (Agg.min L), (Agg.median L), (Agg.max L).
      split; [unfold Agg.min; rewrite Hd; by apply min_least |].
      split.
      { rewrite <- (median_dropna L), Hd. by apply median_middle. }
      split; [unfold Agg.max; rewrite Hd; by apply max_greatest |].
      split; [reflexivity |]. split; [reflexivity |].
      split; [reflexivity |].
      split; [cbn [round_stats agg Moyenne]; unfold Agg.mean; by rewrite Hd |].
      split; [cbn [round_stats agg Écart_type]; unfold Agg.std; by rewrite Hd |].
      intros ->. cbn [round_stats agg Écart_type]. unfold Agg.std.
      rewrite Hd. cbv [Agg.var_in foldl Agg.var_step Nat.leb].
      apply round2_nan.
Qed.

(** The scenario satisfies the theorem's hypotheses. *)
Lemma stats_by_region_rounded_witness :
  "Region" ∈ columns scenario_ABC /\
  numeric scenario_ABC "Poverty_Rate" = Ok [of_Z 10; of_Z 20; of_Z 30] /\
  existsb (fun x => negb (is_nan x)) [of_Z 10; of_Z 20; of_Z 30] = true /\
  stats scenario_ABC =
    Ok {[ "R" := mkStats (of_Z 20) (of_Z 20) (of_Z 10) (of_Z 30) (of_Z 10) ]}.
Proof.
  assert (HR : "Region" ∈ columns scenario_ABC)
    by (apply (bool_decide_unpack _); vm_compute; exact I).
  assert (Hnum : numeric scenario_ABC "Poverty_Rate"
                 = Ok [of_Z 10; of_Z 20; of_Z 30])
    by (vm_compute; reflexivity).
  assert (Hsome : existsb (fun x => negb (is_nan x))
                    [of_Z 10; of_Z 20; of_Z 30] = true)
    by (vm_compute; reflexivity).
  split; [exact HR |]. split; [exact Hnum |]. split; [exact Hsome |].
  exact (proj2 (proj2
           (stats_by_region_rounded scenario_ABC _ HR Hnum Hsome))).
Defined.

(** ** The theorems on concrete tables *)

Ltac by_evaluation :=
  first
    [ vm_compute; reflexivity
    | apply (bool_decide_unpack _); vm_compute; exact I ].

Lemma well_formed_unmapped_raw : well_formed unmapped_raw.
Proof. unfold well_formed. by_evaluation. Defined.

Lemma well_formed_sample_raw : well_formed sample_raw.
Proof. unfold well_formed. by_evaluation. Defined.

(** C1 at the source that names Atlantis. *)
Lemma enrich_unmapped_region_is_missing_witness :
  well_formed unmapped_raw /\
  "Governorate" ∈ columns unmapped_raw /\ ("Name" ∉ columns unmapped_raw) /\
  exists df : DataFrame,
    enrich unmapped_raw = Ok df /\
    (forall geo : GeoJSON,
       load_data (Content unmapped_raw) (Content geo) = Ok (Data df geo)) /\
    Forall2
      (fun r r' : row =>
         cell r' "Name" = cell r "Governorate" /\
         forall name : string,
           cell r "Governorate" = VStr name ->
           match region_map !! name with
           | Some region => cell r' "Region" = VStr region
           | None => cell r' "Region" = NaN
           end)
      (rows unmapped_raw) (rows df).
Proof.
  assert (HG : "Governorate" ∈ columns unmapped_raw) by by_evaluation.
  assert (HN : "Name" ∉ columns unmapped_raw) by by_evaluation.
  split; [exact well_formed_unmapped_raw |]. split; [exact HG |].
  split; [exact HN |].
  exact (enrich_unmapped_region_is_missing unmapped_raw
           well_formed_unmapped_raw HG HN).
Defined.

(** C2 at the table of the 24 governorates. *)
Lemma enriched_regions_match_summary_witness :
  well_formed sample_raw /\ ("Name" ∉ columns sample_raw) /\
  getitem sample_raw "Governorate" = Ok (VStr <$> region_map_items.*1) /\
  (list_to_set region_map_items.*1 : gset string) = dom region_map /\
  exists (df : DataFrame) (regions : list string),
    load_data (Content sample_raw) (Content some_geo)
      = Ok (Data df some_geo) /\
    getitem df "Region" = Ok (VStr <$> regions) /\
    (list_to_set regions : gset string)
      = list_to_set region_summary.Région /\
    size (list_to_set regions : gset string) = 7.
Proof.
  assert (HN : "Name" ∉ columns sample_raw) by by_evaluation.
  assert (Hcol : getitem sample_raw "Governorate"
                 = Ok (VStr <$> region_map_items.*1)) by by_evaluation.
  assert (Hset : (list_to_set region_map_items.*1 : gset string)
                 = dom region_map) by by_evaluation.
  split; [exact well_formed_sample_raw |]. split; [exact HN |].
  split; [exact Hcol |]. split; [exact Hset |].
  exact (enriched_regions_match_summary sample_raw _ some_geo
           well_formed_sample_raw HN Hcol Hset).
Defined.

(** C3 at the table of the 24 governorates. *)
Lemma rank_counts_greater_rates_witness :
  numeric sample_gov_data "Poverty_Rate"
    = Ok (num_cell "Poverty_Rate" <$> rows sample_gov_data) /\
  (forall (gov_info : row) (rate : float64),
     cell gov_info "Poverty_Rate" = VNum rate ->
     rank sample_gov_data gov_info
     = Ok (rank_spec rate (num_cell "Poverty_Rate" <$> rows sample_gov_data))) /\
  (forall (selected_gov : string) (info : row),
     gov_info sample_gov_data selected_gov = Ok info ->
     rank sample_gov_data info
     = Ok (rank_spec (num_cell "Poverty_Rate" info)
             (num_cell "Poverty_Rate" <$> rows sample_gov_data))) /\
  (forall A B : row,
     A ∈ rows sample_gov_data -> B ∈ rows sample_gov_data ->
     exists rankA rankB : Z,
       rank sample_gov_data A = Ok rankA /\
       rank sample_gov_data B = Ok rankB /\
       (gtb (num_cell "Poverty_Rate" A) (num_cell "Poverty_Rate" B) = true ->
        (rankA < rankB)%Z) /\
       (SFeqb (num_cell "Poverty_Rate" A) (num_cell "Poverty_Rate" B) = true ->
        rankA = rankB)).
Proof.
  assert (Hnum : numeric sample_gov_data "Poverty_Rate"
                 = Ok (num_cell "Poverty_Rate" <$> rows sample_gov_data))
    by by_evaluation.
  split; [exact Hnum |].
  exact (rank_counts_greater_rates sample_gov_data _ Hnum).
Defined.

(** C6 at the table of the 24 governorates, for the five largest and the
    five smallest rates. *)
Lemma nlargest_nsmallest_select_witness :
  numeric sample_gov_data "Poverty_Rate"
    = Ok (num_cell "Poverty_Rate" <$> rows sample_gov_data) /\
  forallb (fun x => negb (is_nan x))
    (num_cell "Poverty_Rate" <$> rows sample_gov_data) = true /\
  length (rows sample_gov_data) = 24 /\
  exists (top bottom : DataFrame) (rest_top rest_bottom : list row),
    nlargest 5 "Poverty_Rate" sample_gov_data = Ok top /\
    nsmallest 5 "Poverty_Rate" sample_gov_data = Ok bottom /\
    length (rows top) = 5 /\ length (rows bottom) = 5 /\
    rows sample_gov_data ≡ₚ rows top ++ rest_top /\
    rows sample_gov_data ≡ₚ rows bottom ++ rest_bottom /\
    (forall r e : row,
       r ∈ rows top -> e ∈ rest_top ->
       geb (num_cell "Poverty_Rate" r) (num_cell "Poverty_Rate" e) = true) /\
    (forall r e : row,
       r ∈ rows bottom -> e ∈ rest_bottom ->
       leb (num_cell "Poverty_Rate" r) (num_cell "Poverty_Rate" e) = true) /\
    (5 = 5 -> "Name" ∈ columns sample_gov_data ->
     "Region" ∈ columns sample_gov_data ->
     exists t_poor t_rich : DataFrame,
       top5_poor sample_gov_data = Ok t_poor /\
       top5_rich sample_gov_data = Ok t_rich /\
       rows t_poor
         = restrict ["Name"; "Poverty_Rate"; "Region"] <$> rows top /\
       rows t_rich
         = restrict ["Name"; "Poverty_Rate"; "Region"] <$> rows bottom /\
       length (rows t_poor) = 5 /\ length (rows t_rich) = 5).
Proof.
  assert (Hnum : numeric sample_gov_data "Poverty_Rate"
                 = Ok (num_cell "Poverty_Rate" <$> rows sample_gov_data))
    by by_evaluation.
  assert (Hnan : forallb (fun x => negb (is_nan x))
                   (num_cell "Poverty_Rate" <$> rows sample_gov_data) = true)
    by by_evaluation.
  assert (Hlen : length (rows sample_gov_data) = 24) by by_evaluation.
  assert (Hn : 5 <= length (rows sample_gov_data)) by (rewrite Hlen; lia).
  split; [exact Hnum |]. split; [exact Hnan |]. split; [exact Hlen |].
  exact (nlargest_nsmallest_select sample_gov_data 5 _ Hnum Hnan Hn).
Defined.

(** C8 at the table of the 24 governorates. *)
Lemma df_delegations_empty_with_rate_witness :
  "Governorate" ∈ columns sample_raw /\ ("Name" ∉ columns sample_raw) /\
  "Poverty_Rate" ∈ columns sample_raw /\
  rows df_delegations = [] /\
  columns df_delegations
    = ["Name"; "Governorate"; "Region"; "Poverty_Rate"; "Type"] /\
  exists g : DataFrame,
    enrich_governorates sample_raw = Ok g /\
    rows (concat g df_delegations) = rows g /\
    (forall c : string,
       c ∈ columns df_delegations <->
       c = "Governorate" \/
       (c ∈ columns g /\ c ∈ ["Name"; "Region"; "Poverty_Rate"; "Type"])) /\
    ("Governorate" ∉ columns g) /\
    columns (concat g df_delegations) = (columns g ++ ["Governorate"])%list.
Proof.
  assert (HG : "Governorate" ∈ columns sample_raw) by by_evaluation.
  assert (HN : "Name" ∉ columns sample_raw) by by_evaluation.
  assert (HP : "Poverty_Rate" ∈ columns sample_raw) by by_evaluation.
  split; [exact HG |]. split; [exact HN |]. split; [exact HP |].
  exact (df_delegations_empty_with_rate sample_raw HG HN HP).
Defined.

(** C9 on a store that holds the loaded table of the 24 governorates. *)
Lemma gov_data_for_map_keeps_canonical_table_witness :
  ({[ 0 := sample_gov_data ]} : gmap nat DataFrame) !! 0
    = Some sample_gov_data /\
  (gov_data_for_map 0 {[ 0 := sample_gov_data ]}).2 !! 0
    = Some sample_gov_data.
Proof.
  assert (Hp : ({[ 0 := sample_gov_data ]} : gmap nat DataFrame) !! 0
               = Some sample_gov_data) by by_evaluation.
  split; [exact Hp |].
  exact (proj1 (gov_data_for_map_keeps_canonical_table _ 0 _ Hp)).
Defined.

(** * Further properties of the pages *)

(** ** The region selector *)

(** The first element that a filter keeps, with what precedes it. *)
Lemma filter_first {A : Type} (P : A -> Prop) `{!forall x, Decision (P x)}
    (l : list A) :
  match filter P l with
  | [] => Forall (fun x => ~ P x) l
  | x :: _ =>
      exists l1 l2,
        l = (l1 ++ x :: l2)%list /\ P x /\ Forall (fun y => ~ P y) l1
  end.
Proof.
  induction l as [| y l IH]; [by constructor |].
  rewrite filter_cons. destruct (decide (P y)) as [Hy | Hy].
  - exists [], l. by repeat split.
  - destruct (filter P l) as [| x l'].
    + by constructor.
    + destruct IH as (l1 & l2 & -> & Hx & Hl1).
      exists (y :: l1), l2. repeat split; [done |]. by constructor.
Qed.

Lemma region_options_NoDup : NoDup region_options.
Proof. by_evaluation. Qed.

(** X1: the region page finds its record for every option of the
    selector, and only for those: the record is the one row of
    [df_regions] with the selected name; any other string raises
    IndexError at [.iloc[0]]. *)
Theorem region_data_options (selected_region : string) :
  (selected_region ∈ region_options ->
   exists r : RegionRow,
     region_data selected_region = Ok r /\
     r ∈ df_regions /\ Région r = selected_region /\
     forall r' : RegionRow,
       r' ∈ df_regions -> Région r' = selected_region -> r' = r) /\
  (selected_region ∉ region_options ->
   region_data selected_region = Raise IndexError).
Proof.
  unfold region_data.
  pose proof (filter_first (fun r => Région r = selected_region) df_regions)
    as Hf.
  destruct (filter _ df_regions) as [| r rest] eqn:Hfilter; split.
  - intros Hin. apply list_elem_of_fmap in Hin as (r & -> & Hr).
    rewrite Forall_forall in Hf. by destruct (Hf r Hr).
  - done.
  - intros _. destruct Hf as (l1 & l2 & Hl & Hr & Hl1). exists r.
    split; [done |]. split; [rewrite Hl; set_solver |]. split; [done |].
    intros r' Hr' Hname.
    pose proof region_options_NoDup as Hnd. unfold region_options in Hnd.
    apply list_elem_of_lookup in Hr' as [i Hi].
    assert (Hj : df_regions !! length l1 = Some r).
    { rewrite Hl. by rewrite list_lookup_middle. }
    assert (i = length l1).
    { apply (NoDup_lookup _ i (length l1) selected_region Hnd);
        rewrite list_lookup_fmap.
      - rewrite Hi. cbn. by rewrite Hname.
      - rewrite Hj. cbn. by rewrite Hr. }
    subst i. congruence.
  - intros Hnot. exfalso. apply Hnot.
    destruct Hf as (l1 & l2 & Hl & Hr & _). apply list_elem_of_fmap.
    exists r. split; [done |]. rewrite Hl. set_solver.
Qed.

(** One element of a list without repetition is singled out. *)
Lemma highlight_one (hot cold : string) (l : list string) (i : nat)
    (s : string) :
  NoDup l -> l !! i = Some s ->
  (fun r : string => if decide (r = s) then hot else cold) <$> l
  = <[i := hot]> (replicate (length l) cold).
Proof.
  intros Hnd. revert i. induction Hnd as [| x l Hx Hnd IH]; intros i Hi;
    [done |].
  rewrite fmap_cons. destruct i as [| i]; cbn in Hi.
  - injection Hi as ->. rewrite decide_True by done. cbn. f_equal.
    clear IH Hnd. induction l as [| y l IH]; [done |].
    rewrite fmap_cons. cbn. rewrite decide_False by set_solver.
    f_equal. apply IH. set_solver.
  - rewrite decide_False.
    + cbn. f_equal. by apply IH.
    + intros ->. apply Hx. by apply list_elem_of_lookup_2 in Hi.
Qed.

Lemma highlight_none (hot cold : string) (l : list string) (s : string) :
  s ∉ l ->
  (fun r : string => if decide (r = s) then hot else cold) <$> l
  = replicate (length l) cold.
Proof.
  induction l as [| y l IH]; intros Hs; [done |].
  rewrite fmap_cons. cbn. rewrite decide_False by set_solver.
  f_equal. apply IH. set_solver.
Qed.

(** X2: in the comparison chart exactly one bar is red, the bar of the
    selected region, at the position the region has among the options;
    the six others are blue. For a string that is no option all seven
    bars are blue. *)
Theorem marker_color_one_bar (selected_region : string) :
  (forall i : nat,
     region_options !! i = Some selected_region ->
     marker_color selected_region
     = <[i := "#E53935"]> (replicate 7 "#90CAF9")) /\
  (selected_region ∉ region_options ->
   marker_color selected_region = replicate 7 "#90CAF9").
Proof.
  unfold marker_color. fold region_options. split.
  - intros i Hi.
    by rewrite (highlight_one _ _ _ i selected_region region_options_NoDup).
  - intros Hs. by rewrite highlight_none.
Qed.

(** X3: the detailed analysis has an entry for every option of the region
    selector and for no other string, so that the guard of line 372
    holds for every region that can be selected; every entry lists four
    characteristics. *)
Theorem insights_for_every_option (selected_region : string) :
  (selected_region ∈ region_options <-> is_Some (insights selected_region)) /\
  (forall i : Insights,
     insights selected_region = Some i -> length (Caractéristiques i) = 4).
Proof.
  assert (Hdom :
    dom region_insights = (list_to_set region_options : gset string))
    by by_evaluation.
  assert (Hfour : map_Forall (fun _ i => length (Caractéristiques i) = 4)
                    region_insights) by by_evaluation.
  unfold insights. split.
  - rewrite <- (elem_of_list_to_set (C := gset string)), <- Hdom, elem_of_dom.
    destruct (decide _) as [H | H]; [done |].
    split; [done | by intros [? [=]]].
  - intros i. destruct (decide _); [| done]. apply Hfour.
Qed.

(** ** The governorate selector and the bar colours *)

Lemma eq_str_true (v : value) (s : string) : eq_str v s = true <-> v = VStr s.
Proof.
  destruct v as [t | x]; cbn; [| split; discriminate].
  rewrite bool_decide_eq_true. split; [by intros -> | by intros [= ->]].
Qed.

Lemma select_fmap {A : Type} (p : A -> bool) (l : list A) :
  select l (p <$> l) = filter (fun x => p x = true) l.
Proof.
  induction l as [| x l IH]; [done |].
  rewrite fmap_cons, filter_cons. cbn [select]. rewrite IH.
  destruct (p x); [by rewrite decide_True | by rewrite decide_False].
Qed.

(** X4: the governorate page reads the first row whose name is the
    selected one; it raises IndexError when no row has that name and
    KeyError when the table has no Name column. *)
Theorem gov_info_first_match (gov_data : DataFrame) (selected_gov : string) :
  ("Name" ∉ columns gov_data ->
   gov_info gov_data selected_gov = Raise (KeyError "Name")) /\
  ("Name" ∈ columns gov_data ->
   match gov_info gov_data selected_gov with
   | Ok info =>
       exists l1 l2 : list row,
         rows gov_data = (l1 ++ info :: l2)%list /\
         cell info "Name" = VStr selected_gov /\
         Forall (fun r : row => cell r "Name" <> VStr selected_gov) l1
   | Raise e =>
       e = IndexError /\
       Forall (fun r : row => cell r "Name" <> VStr selected_gov)
         (rows gov_data)
   end).
Proof.
  unfold gov_info, getitem. split; intros HN.
  - by rewrite decide_False.
  - rewrite decide_True by done. cbn [mbind exc_bind].
    rewrite <- list_fmap_compose.
    rewrite (select_fmap (fun r : row => eq_str (cell r "Name") selected_gov)).
    pose proof (filter_first
      (fun r : row => eq_str (cell r "Name") selected_gov = true)
      (rows gov_data)) as Hf.
    destruct (filter _ (rows gov_data)) as [| info rest].
    + split; [done |]. eapply Forall_impl; [exact Hf |].
      intros r Hr. cbn in Hr. by rewrite eq_str_true in Hr.
    + destruct Hf as (l1 & l2 & Hl & Hinfo & Hl1). exists l1, l2.
      split; [done |]. split; [by apply eq_str_true |].
      eapply Forall_impl; [exact Hl1 |].
      intros r Hr. cbn in Hr. by rewrite eq_str_true in Hr.
Qed.

(** X5: over a table whose names are distinct, exactly one bar of the
    governorate chart is red, the bar of the selected governorate, at the
    position of its row; the others are blue. *)
Theorem colors_one_bar (gov_data_sorted : DataFrame) (names : list string)
    (i : nat) (selected_gov : string) :
  getitem gov_data_sorted "Name" = Ok (VStr <$> names) ->
  NoDup names -> names !! i = Some selected_gov ->
  colors gov_data_sorted selected_gov
  = Ok (<[i := "#E53935"]>
          (replicate (length (rows gov_data_sorted)) "#1f77b4")).
Proof.
  intros Hnames Hnd Hi. unfold colors. rewrite Hnames. cbn [mbind exc_bind].
  f_equal. rewrite <- list_fmap_compose.
  assert (Hlen : length (rows gov_data_sorted) = length names).
  { apply getitem_Ok in Hnames as [_ Hnames].
    by rewrite <- (length_fmap VStr names), Hnames, length_fmap. }
  rewrite Hlen, <- (highlight_one _ _ _ i selected_gov Hnd Hi).
  apply list_fmap_ext. intros j n _. cbn.
  by destruct (decide (n = selected_gov)) as [-> | Hne];
    [rewrite bool_decide_eq_true_2 | rewrite bool_decide_eq_false_2].
Qed.

(** ** Bounds of the rank *)

Lemma rank_Ok (gov_data : DataFrame) (rates : list float64) (info : row)
    (rate : float64) :
  numeric gov_data "Poverty_Rate" = Ok rates ->
  cell info "Poverty_Rate" = VNum rate ->
  rank gov_data info = Ok (rank_spec rate rates).
Proof.
  intros Hnum Hcell. unfold rank. rewrite Hnum, Hcell.
  cbn [mbind exc_bind as_float].
  rewrite sum_bool_filter. unfold rank_spec. f_equal. lia.
Qed.

Lemma gtb_nan_r (x : float64) : gtb x S754_nan = false.
Proof. reflexivity. Qed.

(** X6: over a float64 rate column the rank of a row of the table lies
    between 1 and the number of rows; a row whose rate is missing (NaN)
    is ranked first, as no rate compares greater than NaN. *)
Theorem rank_bounds (gov_data : DataFrame) (rates : list float64) :
  numeric gov_data "Poverty_Rate" = Ok rates ->
  forall A : row,
    A ∈ rows gov_data ->
    exists k : Z,
      rank gov_data A = Ok k /\
      (1 <= k <= Z.of_nat (length (rows gov_data)))%Z /\
      (is_nan (num_cell "Poverty_Rate" A) = true -> k = 1%Z).
Proof.
  intros Hnum A HA. pose proof Hnum as Hnum'.
  apply numeric_Ok in Hnum' as (_ & HF & Hrates).
  rewrite Forall_forall in HF.
  exists (rank_spec (num_cell "Poverty_Rate" A) rates).
  split; [by apply rank_Ok, HF |]. unfold rank_spec. split.
  - assert (Hlt : length (filter
                    (fun r => gtb r (num_cell "Poverty_Rate" A) = true) rates)
                  < length rates).
    { apply (length_filter_lt _ _ (num_cell "Poverty_Rate" A)).
      - rewrite Hrates. by apply list_elem_of_fmap_2.
      - by rewrite gtb_irrefl. }
    rewrite Hrates in Hlt |- *. rewrite length_fmap in Hlt. lia.
  - intros Hnan. destruct (num_cell "Poverty_Rate" A); try discriminate.
    assert (Hnone : filter (fun r => gtb r S754_nan = true) rates = []).
    { clear. induction rates as [| x l IH]; [done |].
      rewrite filter_cons, decide_False; [done |]. by rewrite gtb_nan_r. }
    by rewrite Hnone.
Qed.

(** ** The selections beyond the claim *)

(** X7: over a float rate column without missing values, [nlargest] and
    [nsmallest] do not fault on a short table. For every [n] they return
    rows of the table, over the table's columns, and as many as [n]
    allows: [n] rows, or the whole table, reordered, when it has no more
    than [n] rows (no row for [n = 0]). *)
Theorem nlargest_nsmallest_any (gov_data : DataFrame) (n : nat) (c : string)
    (rates : list float64) :
  numeric gov_data c = Ok rates ->
  forallb (fun x => negb (is_nan x)) rates = true ->
  rows gov_data <> [] ->
  exists top bottom : DataFrame,
    nlargest n c gov_data = Ok top /\
    nsmallest n c gov_data = Ok bottom /\
    columns top = columns gov_data /\
    columns bottom = columns gov_data /\
    length (rows top) = Nat.min n (length (rows gov_data)) /\
    length (rows bottom) = Nat.min n (length (rows gov_data)) /\
    rows top ⊆+ rows gov_data /\ rows bottom ⊆+ rows gov_data /\
    (length (rows gov_data) <= n ->
     rows top ≡ₚ rows gov_data /\ rows bottom ≡ₚ rows gov_data).
Proof.
  intros Hnum _ _. unfold nlargest, nsmallest. rewrite Hnum.
  cbn [mbind exc_bind].
  eexists _, _. split; [reflexivity |]. split; [reflexivity |].
  cbn [rows columns]. split; [done |]. split; [done |].
  rewrite !length_take, !(Permutation_length (sort_by_perm _ _)).
  split; [done |]. split; [done |].
  split.
  { transitivity (sort_by (before_desc (num_cell c)) (rows gov_data));
      [apply submseteq_take | by rewrite sort_by_perm]. }
  split.
  { transitivity (sort_by (before_asc (num_cell c)) (rows gov_data));
      [apply submseteq_take | by rewrite sort_by_perm]. }
  intros Hn. rewrite !take_ge
    by (by rewrite (Permutation_length (sort_by_perm _ _))).
  split; apply sort_by_perm.
Qed.

(** X8: over a rate column of numbers, the rows of [nlargest] come in
    descending order of rate (the poorest first) and the rows of
    [nsmallest] in ascending order (the richest first). *)
Theorem nlargest_descending (gov_data : DataFrame) (n : nat)
    (rates : list float64) :
  numeric gov_data "Poverty_Rate" = Ok rates ->
  forallb (fun x => negb (is_nan x)) rates = true ->
  exists top bottom : DataFrame,
    nlargest n "Poverty_Rate" gov_data = Ok top /\
    nsmallest n "Poverty_Rate" gov_data = Ok bottom /\
    StronglySorted
      (fun r r' : row =>
         geb (num_cell "Poverty_Rate" r) (num_cell "Poverty_Rate" r') = true)
      (rows top) /\
    StronglySorted
      (fun r r' : row =>
         leb (num_cell "Poverty_Rate" r) (num_cell "Poverty_Rate" r') = true)
      (rows bottom).
Proof.
  intros Hnum Hnan. pose proof (forallb_number _ Hnan) as Hnumber.
  pose proof Hnum as Hnum'. apply numeric_Ok in Hnum' as (_ & _ & ->).
  rewrite Forall_fmap in Hnumber.
  unfold nlargest, nsmallest. rewrite Hnum. cbn [mbind exc_bind].
  eexists _, _. split; [reflexivity |]. split; [reflexivity |].
  cbn [rows]. split.
  - apply (StronglySorted_app_1_l _ _
             (drop n (sort_by (before_desc (num_cell "Poverty_Rate"))
                        (rows gov_data)))).
    rewrite take_drop. by apply sort_desc_sorted.
  - apply (StronglySorted_app_1_l _ _
             (drop n (sort_by (before_asc (num_cell "Poverty_Rate"))
                        (rows gov_data)))).
    rewrite take_drop. by apply sort_asc_sorted.
Qed.

Lemma length_filter_fmap {A B : Type} (f : A -> B) (P : B -> Prop)
    `{!forall y, Decision (P y)} (l : list A) :
  length (filter P (f <$> l)) = length (filter (fun x => P (f x)) l).
Proof.
  induction l as [| x l IH]; [done |].
  rewrite fmap_cons, !filter_cons.
  destruct (decide (P (f x))); cbn; by rewrite IH.
Qed.

Lemma geb_not_gtb (x y : float64) : geb x y = true -> gtb y x = false.
Proof.
  unfold geb, gtb. fold (leb y x) (ltb x y).
  rewrite <- not_true_iff_false, leb_key, ltb_key. tauto.
Qed.

(** X9: over a rate column of numbers, every governorate that [nlargest]
    lists among the [n] poorest has a rank of at most [n]. *)
Theorem nlargest_rank_at_most (gov_data : DataFrame) (n : nat)
    (rates : list float64) :
  numeric gov_data "Poverty_Rate" = Ok rates ->
  forallb (fun x => negb (is_nan x)) rates = true ->
  n <= length (rows gov_data) ->
  exists top : DataFrame,
    nlargest n "Poverty_Rate" gov_data = Ok top /\
    forall r : row,
      r ∈ rows top ->
      exists k : Z, rank gov_data r = Ok k /\ (1 <= k <= Z.of_nat n)%Z.
Proof.
  intros Hnum Hnan Hn. pose proof (forallb_number _ Hnan) as Hnumber.
  pose proof Hnum as Hnum'. apply numeric_Ok in Hnum' as (_ & HF & Hrates).
  rewrite Hrates, Forall_fmap in Hnumber.
  destruct (nlargest_rows (num_cell "Poverty_Rate") n (rows gov_data))
    as (Hlen & Hperm & Hord); [done | done |].
  unfold nlargest. rewrite Hnum. cbn [mbind exc_bind].
  eexists. split; [reflexivity |]. cbn [rows].
  set (top := take n _) in *. set (rest := drop n _) in *. intros r Hr.
  assert (Hin : r ∈ rows gov_data) by (rewrite Hperm; set_solver).
  rewrite Forall_forall in HF.
  exists (rank_spec (num_cell "Poverty_Rate" r) rates).
  split; [by apply rank_Ok, HF |]. unfold rank_spec.
  enough (length (filter (fun x => gtb x (num_cell "Poverty_Rate" r) = true)
                    rates) < n) by lia.
  rewrite Hrates, length_filter_fmap, Hperm, filter_app, length_app.
  assert (Hrest : filter
            (fun x : row => gtb (num_cell "Poverty_Rate" x)
                              (num_cell "Poverty_Rate" r) = true) rest = []).
  { assert (Hall : forall e, e ∈ rest ->
              gtb (num_cell "Poverty_Rate" e) (num_cell "Poverty_Rate" r)
              = false)
      by (intros e He; by apply geb_not_gtb, Hord).
    clear -Hall. induction rest as [| e rest IH]; [done |].
    rewrite filter_cons, decide_False.
    - apply IH. intros e' He'. apply Hall. by right.
    - rewrite Hall; [done | by left]. }
  rewrite Hrest. cbn [length]. rewrite Nat.add_0_r, <- Hlen.
  apply (length_filter_lt _ _ r Hr). by rewrite gtb_irrefl.
Qed.

(** ** The loaded table under the pages *)

Lemma enrich_row_Type (r : row) :
  cell (enrich_row r) "Type" = VStr "Gouvernorat".
Proof.
  unfold enrich_row, cell. rewrite lookup_insert_ne by done.
  by rewrite lookup_insert_eq.
Qed.

Lemma enrich_row_Governorate (r : row) : enrich_row r !! "Governorate" = None.
Proof.
  unfold enrich_row. rewrite !lookup_insert_ne by done. unfold rename_key.
  destruct (r !! "Governorate") eqn:HG; [| done].
  rewrite lookup_insert_ne by done. apply lookup_delete_eq.
Qed.

Lemma enrich_row_other (r : row) (c : string) :
  c ∉ ["Governorate"; "Name"; "Type"; "Region"] ->
  enrich_row r !! c = r !! c.
Proof.
  intros Hc.
  assert (c <> "Governorate" /\ c <> "Name" /\ c <> "Type" /\ c <> "Region")
    as (H1 & H2 & H3 & H4) by set_solver.
  unfold enrich_row. rewrite !lookup_insert_ne by done. unfold rename_key.
  destruct (r !! "Governorate"); [| done].
  rewrite lookup_insert_ne by done. by rewrite lookup_delete_ne.
Qed.

Lemma enriched_Name (raw : DataFrame) :
  "Governorate" ∈ columns raw \/ "Name" ∈ columns raw ->
  "Name" ∈ enriched_columns raw.
Proof.
  intros H. apply enriched_columns_spec.
  destruct (decide ("Governorate" ∈ columns raw)); [tauto |].
  left. split; [tauto | done].
Qed.

(** The governorate rows of a loaded table are the whole table. *)
Lemma gov_data_enriched (raw : DataFrame) :
  let df := concat (mkDataFrame (enriched_columns raw)
                      (enrich_row <$> rows raw)) df_delegations in
  gov_data df = Ok df.
Proof.
  intros df. unfold gov_data, getitem. rewrite decide_True.
  - cbn [mbind exc_bind]. f_equal. rewrite <- list_fmap_compose.
    unfold getitem_mask.
    rewrite (select_fmap (fun r : row => eq_str (cell r "Type") "Gouvernorat")).
    rewrite filter_all; [by destruct df |].
    unfold df. rewrite rows_concat_delegations. cbn [rows].
    apply Forall_fmap, Forall_forall. intros r _. cbn.
    by rewrite enrich_row_Type.
  - unfold df, concat. cbn [columns]. apply elem_of_app. left.
    apply enriched_columns_spec. tauto.
Qed.

(** X10: for a source with one name column, every row of the loaded
    table is tagged as a governorate, so the filter on the entity type,
    which every page applies first, keeps the whole table: the delegation
    placeholder and the filter cancel out. *)
Theorem gov_data_keeps_loaded_table (raw : DataFrame) :
  one_name_column raw ->
  exists df : DataFrame,
    enrich raw = Ok df /\ gov_data df = Ok df /\
    length (rows df) = length (rows raw) /\
    Forall (fun r : row => cell r "Type" = VStr "Gouvernorat") (rows df).
Proof.
  intros Hcol. eexists. split; [by apply enrich_Ok |].
  split; [apply gov_data_enriched |].
  rewrite rows_concat_delegations. cbn [rows].
  split; [by rewrite length_fmap |].
  apply Forall_fmap, Forall_forall. intros r _. apply enrich_row_Type.
Qed.

Lemma numeric_enriched (raw : DataFrame) (c : string) (xs : list float64) :
  c ∉ ["Governorate"; "Name"; "Type"; "Region"] ->
  numeric raw c = Ok xs ->
  numeric (concat (mkDataFrame (enriched_columns raw)
                     (enrich_row <$> rows raw)) df_delegations) c = Ok xs.
Proof.
  intros Hc Hnum. apply numeric_Ok in Hnum as (Hin & HF & ->).
  assert (Hne : c <> "Governorate") by set_solver.
  assert (Hcell : forall r : row, cell (enrich_row r) c = cell r c)
    by (intros r; unfold cell; by rewrite enrich_row_other).
  apply numeric_Ok. rewrite rows_concat_delegations. cbn [rows columns concat].
  split; [| split].
  - apply elem_of_app. left. apply enriched_columns_spec. left. by split.
  - apply Forall_fmap. eapply Forall_impl; [exact HF |].
    intros r Hr. cbn. unfold num_cell. by rewrite !Hcell.
  - rewrite <- list_fmap_compose. apply list_fmap_ext.
    intros i r _. cbn. unfold num_cell. by rewrite Hcell.
Qed.

(** X11: for a source with one name column, enrichment touches the
    name, the entity type and the region and nothing else: every other
    cell of every row, the rate in particular, is in the loaded table as
    it was in the source, row by row, and the Governorate cell is gone
    (renamed). *)
Theorem enrich_keeps_other_cells (raw : DataFrame) :
  one_name_column raw ->
  exists df : DataFrame,
    enrich raw = Ok df /\
    Forall2
      (fun r r' : row =>
         r' !! "Governorate" = None /\
         forall c : string,
           c ∉ ["Governorate"; "Name"; "Type"; "Region"] ->
           r' !! c = r !! c)
      (rows raw) (rows df).
Proof.
  intros Hcol. eexists. split; [by apply enrich_Ok |].
  rewrite rows_concat_delegations. cbn [rows].
  apply Forall2_fmap_r, Forall_Forall2_diag, Forall_forall. intros r _.
  split; [apply enrich_row_Governorate |]. apply enrich_row_other.
Qed.

(** X12: for every table that the load returns, the rendering step of
    the map succeeds: it returns a new frame with one row for each row of
    the table, the canonical name kept under [display_name]. *)
Theorem gov_data_for_map_of_loaded (raw : DataFrame)
    (σ : gmap nat DataFrame) (df_poverty : nat) (df : DataFrame) :
  "Governorate" ∈ columns raw \/ "Name" ∈ columns raw ->
  enrich raw = Ok df ->
  σ !! df_poverty = Some df ->
  exists (q : nat) (view : DataFrame),
    (gov_data_for_map df_poverty σ).1 = Ok q /\
    (gov_data_for_map df_poverty σ).2 !! q = Some view /\
    rows view = map_row <$> rows df /\
    length (rows view) = length (rows raw) /\
    "display_name" ∈ columns view.
Proof.
  intros Hcol Henrich Hp.
  assert (Hone : one_name_column raw).
  { destruct (decide ("Governorate" ∈ columns raw)) as [HG | HG],
      (decide ("Name" ∈ columns raw)) as [HN | HN].
    - by rewrite enrich_TypeError in Henrich.
    - by left.
    - by right.
    - tauto. }
  rewrite enrich_Ok in Henrich by done.
  injection Henrich as <-.
  set (df := concat _ _) in *.
  pose proof (gov_data_enriched raw) as Hgov. cbv zeta in Hgov. fold df in Hgov.
  rewrite (gov_data_for_map_run σ df_poverty df df Hp Hgov).
  rewrite decide_True.
  - cbn [fst snd]. eexists _, _. split; [reflexivity |].
    split; [apply lookup_insert_eq |]. cbn [rows map_view columns].
    split; [done |]. split.
    + unfold df. rewrite rows_concat_delegations. cbn [rows].
      by rewrite !length_fmap.
    + apply elem_of_with_column. left. apply elem_of_with_column. by right.
  - unfold df, concat. cbn [columns]. apply elem_of_app. left.
    by apply enriched_Name.
Qed.

(** ** The statistics table beyond the claim *)

(** A region has members exactly when a row carries its name. *)
Lemma member_rates_nil (gov_data : DataFrame) (R : string) :
  member_rates gov_data R = [] <->
  Forall (fun r : row => cell r "Region" <> VStr R) (rows gov_data).
Proof.
  unfold member_rates.
  pose proof (filter_first
    (fun r : row => eq_str (cell r "Region") R = true) (rows gov_data)) as Hf.
  destruct (filter _ (rows gov_data)) as [| r l]; split.
  - intros _. eapply Forall_impl; [exact Hf |]. intros r Hr. cbn in Hr.
    by rewrite eq_str_true in Hr.
  - done.
  - discriminate.
  - intros HF. destruct Hf as (l1 & l2 & Hl & Hr & _).
    rewrite Forall_forall in HF. apply eq_str_true in Hr.
    exfalso. apply (HF r); [rewrite Hl; set_solver | done].
Qed.

Lemma Poverty_Rate_kept :
  "Poverty_Rate" ∉ ["Governorate"; "Name"; "Type"; "Region"].
Proof. by_evaluation. Qed.

Lemma member_rates_cons (gov_data : DataFrame) (R : string) (x : float64)
    (l : list float64) :
  member_rates gov_data R = x :: l ->
  exists r : row, r ∈ rows gov_data /\ cell r "Region" = VStr R.
Proof.
  unfold member_rates.
  pose proof (filter_first
    (fun r : row => eq_str (cell r "Region") R = true) (rows gov_data)) as Hf.
  destruct (filter _ (rows gov_data)) as [| r l']; [discriminate |].
  intros _. destruct Hf as (l1 & l2 & Hl & Hr & _). exists r.
  split; [rewrite Hl; set_solver | by apply eq_str_true].
Qed.

(** X14: for a source whose governorate names are exactly the keys of
    [region_map] and whose rates are floats, the statistics table of the
    loaded governorates has exactly seven rows, one for each region of
    the regional summary. *)
Theorem stats_of_loaded_regions (raw : DataFrame) (names : list string)
    (rates : list float64) :
  well_formed raw -> "Name" ∉ columns raw ->
  getitem raw "Governorate" = Ok (VStr <$> names) ->
  (list_to_set names : gset string) = dom region_map ->
  numeric raw "Poverty_Rate" = Ok rates ->
  exists (df : DataFrame) (t : gmap string Stats),
    enrich raw = Ok df /\ gov_data df = Ok df /\ stats df = Ok t /\
    dom t = (list_to_set region_options : gset string) /\ size t = 7.
Proof.
  intros Hwf HN Hcol Hnames Hnum.
  apply getitem_Ok in Hcol as [HG Hcol].
  set (df := concat (mkDataFrame (enriched_columns raw)
                       (enrich_row <$> rows raw)) df_delegations).
  assert (HR : "Region" ∈ columns df).
  { unfold df, concat. cbn [columns]. apply elem_of_app. left.
    apply enriched_columns_spec. tauto. }
  assert (Hnum' : numeric df "Poverty_Rate" = Ok rates)
    by (apply numeric_enriched; [apply Poverty_Rate_kept | exact Hnum]).
  destruct (stats_lookup df rates HR Hnum') as (t & Hstats & Hlookup).
  assert (Hdom : dom t = (list_to_set region_options : gset string)).
  { replace (list_to_set region_options : gset string)
      with (map_img region_map : gset string) by by_evaluation.
    apply set_eq. intros R. rewrite elem_of_dom, elem_of_map_img, Hlookup.
    assert (Hrows : rows df = enrich_row <$> rows raw)
      by (unfold df; by rewrite rows_concat_delegations).
    assert (Hregion : forall r : row, r ∈ rows raw ->
              cell (enrich_row r) "Region"
              = map_dict region_map (cell r "Governorate")).
    { intros r Hr. apply enrich_row_cells.
      by apply (well_formed_lookup_None raw). }
    split.
    - intros Hsome.
      destruct (member_rates df R) as [| x l] eqn:Hmem; [by destruct Hsome |].
      apply member_rates_cons in Hmem as (r' & Hr' & Hreg).
      rewrite Hrows in Hr'.
      apply list_elem_of_fmap in Hr' as (r & -> & Hr).
      rewrite (Hregion r Hr) in Hreg.
      assert (Hname : cell r "Governorate" ∈ VStr <$> names)
        by (rewrite Hcol;
            by apply (list_elem_of_fmap_2
                        (fun r : row => cell r "Governorate"))).
      apply list_elem_of_fmap in Hname as (n & Hn & _).
      rewrite Hn in Hreg. unfold map_dict in Hreg. exists n.
      destruct (region_map !! n); [congruence | discriminate].
    - intros [n Hn].
      assert (Hin : n ∈ names).
      { apply (elem_of_list_to_set (C := gset string)). rewrite Hnames.
        by apply elem_of_dom. }
      assert (Hv :
        VStr n ∈ (fun r : row => cell r "Governorate") <$> rows raw)
        by (rewrite <- Hcol; by apply list_elem_of_fmap_2).
      apply list_elem_of_fmap in Hv as (r & Hrn & Hr).
      destruct (member_rates df R) as [| x l] eqn:Hmem; [| done].
      exfalso. apply member_rates_nil in Hmem. rewrite Forall_forall in Hmem.
      apply (Hmem (enrich_row r)).
      + rewrite Hrows. by apply list_elem_of_fmap_2.
      + rewrite (Hregion r Hr), <- Hrn. unfold map_dict. by rewrite Hn. }
  exists df, t. split; [apply enrich_Ok; by left |].
  split; [apply gov_data_enriched |]. split; [done |]. split; [done |].
  rewrite <- size_dom, Hdom. by_evaluation.
Qed.

(** X15: a row whose region is missing belongs to no region: the
    statistics table is the same with the row and without it. A
    governorate that [region_map] does not know is thus left out of every
    regional statistic without notice. *)
Theorem stats_ignores_missing_region (cols : list string) (l1 l2 : list row)
    (r : row) (rates : list float64) :
  "Region" ∈ cols ->
  numeric (mkDataFrame cols (l1 ++ r :: l2)) "Poverty_Rate" = Ok rates ->
  (forall R : string, cell r "Region" <> VStr R) ->
  exists t : gmap string Stats,
    stats (mkDataFrame cols (l1 ++ r :: l2)) = Ok t /\
    stats (mkDataFrame cols (l1 ++ l2)) = Ok t.
Proof.
  intros HR Hnum Hr.
  destruct (stats_lookup (mkDataFrame cols (l1 ++ r :: l2)) rates HR Hnum)
    as (t & Hstats & Hlookup).
  assert (Hnum' : numeric (mkDataFrame cols (l1 ++ l2)) "Poverty_Rate"
                  = Ok (num_cell "Poverty_Rate" <$> (l1 ++ l2)%list)).
  { apply numeric_Ok in Hnum as (Hc & HF & _). apply numeric_Ok.
    cbn [rows columns] in *. split; [done |]. split; [| done].
    apply Forall_app in HF as [H1 H2]. apply Forall_cons in H2 as [_ H2].
    by apply Forall_app. }
  destruct (stats_lookup (mkDataFrame cols (l1 ++ l2)) _ HR Hnum')
    as (t' & Hstats' & Hlookup').
  exists t. split; [done |]. rewrite Hstats'. f_equal. apply map_eq. intros R.
  rewrite Hlookup, Hlookup'. unfold member_rates. cbn [rows].
  rewrite !filter_app, filter_cons, decide_False; [done |].
  rewrite eq_str_true. apply Hr.
Qed.

(** X16: a region with a single governorate has no standard deviation:
    its row holds NaN there, and the rate of the governorate, rounded to
    two decimals, as median, minimum and maximum. *)
Theorem stats_single_member (gov_data : DataFrame) (rates : list float64)
    (R : string) (x : float64) :
  "Region" ∈ columns gov_data ->
  numeric gov_data "Poverty_Rate" = Ok rates ->
  member_rates gov_data R = [x] ->
  exists (t : gmap string Stats) (s : Stats),
    stats gov_data = Ok t /\ t !! R = Some s /\
    Écart_type s = nan /\
    (is_nan x = false ->
     Médiane s = Agg.round2 x /\ Min s = Agg.round2 x /\
     Max s = Agg.round2 x).
Proof.
  intros HR Hnum Hmem.
  destruct (stats_lookup _ rates HR Hnum) as (t & Hstats & Hlookup).
  exists t, (round_stats (agg [x])). split; [done |].
  split; [by rewrite Hlookup, Hmem |]. split.
  - cbn [round_stats Écart_type agg]. unfold Agg.std, Agg.dropna.
    rewrite filter_cons, filter_nil.
    destruct (decide (is_nan x = false));
      cbv [Agg.var_in foldl Agg.var_step Nat.leb]; apply round2_nan.
  - intros Hx. cbn [round_stats Médiane Min Max agg].
    unfold Agg.median, Agg.min, Agg.max, Agg.dropna.
    rewrite filter_cons, filter_nil, decide_True by done.
    repeat split.
Qed.

(** ** The names of the boundary file *)

(** X17: every name that [name_mapping] renames is a governorate of
    [region_map], and the renaming keeps the governorates apart: two
    different governorates never get the same key of the boundary file,
    so that no two rows of the map collide on one shape. *)
Theorem name_mapping_keeps_governorates_apart :
  dom name_mapping ⊆ dom region_map /\
  forall n1 n2 : string,
    n1 ∈ dom region_map -> n2 ∈ dom region_map ->
    replace_dict name_mapping (VStr n1) = replace_dict name_mapping (VStr n2) ->
    n1 = n2.
Proof.
  split; [by_evaluation |].
  assert (Hkeys : dom region_map
                  = (list_to_set region_map_items.*1 : gset string))
    by by_evaluation.
  assert (Hnd : NoDup ((fun n : string => default n (name_mapping !! n))
                         <$> region_map_items.*1)) by by_evaluation.
  assert (Hrep : forall n : string,
            replace_dict name_mapping (VStr n)
            = VStr (default n (name_mapping !! n))).
  { intros n. unfold replace_dict. by destruct (name_mapping !! n). }
  intros n1 n2 H1 H2. rewrite !Hrep. intros [= Heq].
  rewrite Hkeys in H1, H2. apply elem_of_list_to_set in H1, H2.
  apply list_elem_of_lookup in H1 as [i Hi], H2 as [j Hj].
  assert (i = j).
  { apply (NoDup_lookup _ i j (default n1 (name_mapping !! n1)) Hnd);
      rewrite list_lookup_fmap.
    - by rewrite Hi.
    - rewrite Hj. exact (f_equal Some (eq_sym Heq)). }
  subst j. congruence.
Qed.

(** ** The further properties on concrete tables *)

Lemma sample_has_name_column :
  "Governorate" ∈ columns sample_raw \/ "Name" ∈ columns sample_raw.
Proof. left. by_evaluation. Defined.

Lemma sample_one_name_column : one_name_column sample_raw.
Proof. left. split; by_evaluation. Defined.

Lemma sample_rates_numeric :
  numeric sample_gov_data "Poverty_Rate"
  = Ok (num_cell "Poverty_Rate" <$> rows sample_gov_data).
Proof. by_evaluation. Defined.

Lemma sample_rates_numbers :
  forallb (fun x => negb (is_nan x))
    (num_cell "Poverty_Rate" <$> rows sample_gov_data) = true.
Proof. by_evaluation. Defined.

(** X5 at the table of the 24 governorates, Le Kef selected. *)
Lemma colors_one_bar_witness :
  getitem sample_gov_data "Name" = Ok (VStr <$> region_map_items.*1) /\
  NoDup region_map_items.*1 /\
  region_map_items.*1 !! 9 = Some "Le Kef" /\
  colors sample_gov_data "Le Kef"
  = Ok (<[9 := "#E53935"]>
          (replicate (length (rows sample_gov_data)) "#1f77b4")).
Proof.
  assert (Hnames : getitem sample_gov_data "Name"
                   = Ok (VStr <$> region_map_items.*1)) by by_evaluation.
  assert (Hnd : NoDup region_map_items.*1) by by_evaluation.
  assert (Hi : region_map_items.*1 !! 9 = Some "Le Kef") by by_evaluation.
  split; [exact Hnames |]. split; [exact Hnd |]. split; [exact Hi |].
  exact (colors_one_bar sample_gov_data _ 9 "Le Kef" Hnames Hnd Hi).
Defined.

(** X6 at the table of the 24 governorates. *)
Lemma rank_bounds_witness :
  numeric sample_gov_data "Poverty_Rate"
    = Ok (num_cell "Poverty_Rate" <$> rows sample_gov_data) /\
  forall A : row,
    A ∈ rows sample_gov_data ->
    exists k : Z,
      rank sample_gov_data A = Ok k /\
      (1 <= k <= Z.of_nat (length (rows sample_gov_data)))%Z /\
      (is_nan (num_cell "Poverty_Rate" A) = true -> k = 1%Z).
Proof.
  split; [exact sample_rates_numeric |].
  exact (rank_bounds sample_gov_data _ sample_rates_numeric).
Defined.

(** X7 at the three rows of the spec's scenario, for five rows. *)
Lemma nlargest_nsmallest_any_witness :
  numeric scenario_ABC "Poverty_Rate" = Ok [of_Z 10; of_Z 20; of_Z 30] /\
  forallb (fun x => negb (is_nan x)) [of_Z 10; of_Z 20; of_Z 30] = true /\
  rows scenario_ABC <> [] /\
  exists top bottom : DataFrame,
    nlargest 5 "Poverty_Rate" scenario_ABC = Ok top /\
    nsmallest 5 "Poverty_Rate" scenario_ABC = Ok bottom /\
    columns top = columns scenario_ABC /\
    columns bottom = columns scenario_ABC /\
    length (rows top) = Nat.min 5 (length (rows scenario_ABC)) /\
    length (rows bottom) = Nat.min 5 (length (rows scenario_ABC)) /\
    rows top ⊆+ rows scenario_ABC /\ rows bottom ⊆+ rows scenario_ABC /\
    (length (rows scenario_ABC) <= 5 ->
     rows top ≡ₚ rows scenario_ABC /\ rows bottom ≡ₚ rows scenario_ABC).
Proof.
  assert (Hnum : numeric scenario_ABC "Poverty_Rate"
                 = Ok [of_Z 10; of_Z 20; of_Z 30]) by by_evaluation.
  assert (Hnn : forallb (fun x => negb (is_nan x))
                  [of_Z 10; of_Z 20; of_Z 30] = true) by by_evaluation.
  assert (Hne : rows scenario_ABC <> [])
    by (unfold scenario_ABC; cbn [rows]; discriminate).
  split; [exact Hnum |]. split; [exact Hnn |]. split; [exact Hne |].
  exact (nlargest_nsmallest_any scenario_ABC 5 "Poverty_Rate" _ Hnum Hnn Hne).
Defined.

(** X8 at the table of the 24 governorates, for five rows. *)
Lemma nlargest_descending_witness :
  numeric sample_gov_data "Poverty_Rate"
    = Ok (num_cell "Poverty_Rate" <$> rows sample_gov_data) /\
  forallb (fun x => negb (is_nan x))
    (num_cell "Poverty_Rate" <$> rows sample_gov_data) = true /\
  exists top bottom : DataFrame,
    nlargest 5 "Poverty_Rate" sample_gov_data = Ok top /\
    nsmallest 5 "Poverty_Rate" sample_gov_data = Ok bottom /\
    StronglySorted
      (fun r r' : row =>
         geb (num_cell "Poverty_Rate" r) (num_cell "Poverty_Rate" r') = true)
      (rows top) /\
    StronglySorted
      (fun r r' : row =>
         leb (num_cell "Poverty_Rate" r) (num_cell "Poverty_Rate" r') = true)
      (rows bottom).
Proof.
  split; [exact sample_rates_numeric |]. split; [exact sample_rates_numbers |].
  exact (nlargest_descending sample_gov_data 5 _
           sample_rates_numeric sample_rates_numbers).
Defined.

(** X9 at the table of the 24 governorates, for five rows. *)
Lemma nlargest_rank_at_most_witness :
  numeric sample_gov_data "Poverty_Rate"
    = Ok (num_cell "Poverty_Rate" <$> rows sample_gov_data) /\
  forallb (fun x => negb (is_nan x))
    (num_cell "Poverty_Rate" <$> rows sample_gov_data) = true /\
  length (rows sample_gov_data) = 24 /\
  exists top : DataFrame,
    nlargest 5 "Poverty_Rate" sample_gov_data = Ok top /\
    forall r : row,
      r ∈ rows top ->
      exists k : Z, rank sample_gov_data r = Ok k /\ (1 <= k <= Z.of_nat 5)%Z.
Proof.
  assert (Hlen : length (rows sample_gov_data) = 24) by by_evaluation.
  assert (Hn : 5 <= length (rows sample_gov_data)) by (rewrite Hlen; lia).
  split; [exact sample_rates_numeric |]. split; [exact sample_rates_numbers |].
  split; [exact Hlen |].
  exact (nlargest_rank_at_most sample_gov_data 5 _
           sample_rates_numeric sample_rates_numbers Hn).
Defined.

(** X10 at the source of the 24 governorates. *)
Lemma gov_data_keeps_loaded_table_witness :
  one_name_column sample_raw /\
  exists df : DataFrame,
    enrich sample_raw = Ok df /\ gov_data df = Ok df /\
    length (rows df) = length (rows sample_raw) /\
    Forall (fun r : row => cell r "Type" = VStr "Gouvernorat") (rows df).
Proof.
  split; [exact sample_one_name_column |].
  exact (gov_data_keeps_loaded_table sample_raw sample_one_name_column).
Defined.

(** X11 at the source of the 24 governorates. *)
Lemma enrich_keeps_other_cells_witness :
  one_name_column sample_raw /\
  exists df : DataFrame,
    enrich sample_raw = Ok df /\
    Forall2
      (fun r r' : row =>
         r' !! "Governorate" = None /\
         forall c : string,
           c ∉ ["Governorate"; "Name"; "Type"; "Region"] ->
           r' !! c = r !! c)
      (rows sample_raw) (rows df).
Proof.
  split; [exact sample_one_name_column |].
  exact (enrich_keeps_other_cells sample_raw sample_one_name_column).
Defined.

(** X12 on a store that holds the loaded table of the 24 governorates. *)
Lemma gov_data_for_map_of_loaded_witness :
  ("Governorate" ∈ columns sample_raw \/ "Name" ∈ columns sample_raw) /\
  enrich sample_raw = Ok sample_gov_data /\
  ({[ 0 := sample_gov_data ]} : gmap nat DataFrame) !! 0
    = Some sample_gov_data /\
  exists (q : nat) (view : DataFrame),
    (gov_data_for_map 0 {[ 0 := sample_gov_data ]}).1 = Ok q /\
    (gov_data_for_map 0 {[ 0 := sample_gov_data ]}).2 !! q = Some view /\
    rows view = map_row <$> rows sample_gov_data /\
    length (rows view) = length (rows sample_raw) /\
    "display_name" ∈ columns view.
Proof.
  assert (He : enrich sample_raw = Ok sample_gov_data) by by_evaluation.
  assert (Hp : ({[ 0 := sample_gov_data ]} : gmap nat DataFrame) !! 0
               = Some sample_gov_data) by by_evaluation.
  split; [exact sample_has_name_column |]. split; [exact He |].
  split; [exact Hp |].
  exact (gov_data_for_map_of_loaded sample_raw _ 0 _
           sample_has_name_column He Hp).
Defined.

(** X14 at the source of the 24 governorates. *)
Lemma stats_of_loaded_regions_witness :
  well_formed sample_raw /\ ("Name" ∉ columns sample_raw) /\
  getitem sample_raw "Governorate" = Ok (VStr <$> region_map_items.*1) /\
  (list_to_set region_map_items.*1 : gset string) = dom region_map /\
  numeric sample_raw "Poverty_Rate"
    = Ok (num_cell "Poverty_Rate" <$> rows sample_raw) /\
  exists (df : DataFrame) (t : gmap string Stats),
    enrich sample_raw = Ok df /\ gov_data df = Ok df /\ stats df = Ok t /\
    dom t = (list_to_set region_options : gset string) /\ size t = 7.
Proof.
  assert (HN : "Name" ∉ columns sample_raw) by by_evaluation.
  assert (Hcol : getitem sample_raw "Governorate"
                 = Ok (VStr <$> region_map_items.*1)) by by_evaluation.
  assert (Hset : (list_to_set region_map_items.*1 : gset string)
                 = dom region_map) by by_evaluation.
  assert (Hnum : numeric sample_raw "Poverty_Rate"
                 = Ok (num_cell "Poverty_Rate" <$> rows sample_raw))
    by by_evaluation.
  split; [exact well_formed_sample_raw |]. split; [exact HN |].
  split; [exact Hcol |]. split; [exact Hset |]. split; [exact Hnum |].
  exact (stats_of_loaded_regions sample_raw _ _
           well_formed_sample_raw HN Hcol Hset Hnum).
Defined.

(** X15 at the loaded rows of Tunis and of Atlantis, which has no
    region. *)
Lemma stats_ignores_missing_region_witness :
  "Region" ∈ ["Name"; "Poverty_Rate"; "Type"; "Region"; "Governorate"] /\
  numeric
    (mkDataFrame ["Name"; "Poverty_Rate"; "Type"; "Region"; "Governorate"]
       ([tunis_row] ++ atlantis_row :: []))
    "Poverty_Rate" = Ok [dec 46 10; dec 100 10] /\
  (forall R : string, cell atlantis_row "Region" <> VStr R) /\
  exists t : gmap string Stats,
    stats
      (mkDataFrame ["Name"; "Poverty_Rate"; "Type"; "Region"; "Governorate"]
         ([tunis_row] ++ atlantis_row :: [])) = Ok t /\
    stats
      (mkDataFrame ["Name"; "Poverty_Rate"; "Type"; "Region"; "Governorate"]
         ([tunis_row] ++ [])) = Ok t.
Proof.
  assert (HR : "Region"
               ∈ ["Name"; "Poverty_Rate"; "Type"; "Region"; "Governorate"])
    by by_evaluation.
  assert (Hnum : numeric
            (mkDataFrame
               ["Name"; "Poverty_Rate"; "Type"; "Region"; "Governorate"]
               ([tunis_row] ++ atlantis_row :: []))
            "Poverty_Rate" = Ok [dec 46 10; dec 100 10]) by by_evaluation.
  assert (Hr : forall R : string, cell atlantis_row "Region" <> VStr R)
    by (intros R; vm_compute; discriminate).
  split; [exact HR |]. split; [exact Hnum |]. split; [exact Hr |].
  exact (stats_ignores_missing_region _ [tunis_row] [] atlantis_row _
           HR Hnum Hr).
Defined.

(** X16 at a table whose region S has the single governorate B. *)
Lemma stats_single_member_witness :
  "Region" ∈ columns scenario_single /\
  numeric scenario_single "Poverty_Rate" = Ok [of_Z 10; of_Z 20; of_Z 30] /\
  member_rates scenario_single "S" = [of_Z 20] /\
  exists (t : gmap string Stats) (s : Stats),
    stats scenario_single = Ok t /\ t !! "S" = Some s /\
    Écart_type s = nan /\
    (is_nan (of_Z 20) = false ->
     Médiane s = Agg.round2 (of_Z 20) /\ Min s = Agg.round2 (of_Z 20) /\
     Max s = Agg.round2 (of_Z 20)).
Proof.
  assert (HR : "Region" ∈ columns scenario_single) by by_evaluation.
  assert (Hnum : numeric scenario_single "Poverty_Rate"
                 = Ok [of_Z 10; of_Z 20; of_Z 30]) by by_evaluation.
  assert (Hmem : member_rates scenario_single "S" = [of_Z 20])
    by by_evaluation.
  split; [exact HR |]. split; [exact Hnum |]. split; [exact Hmem |].
  exact (stats_single_member scenario_single _ "S" _ HR Hnum Hmem).
Defined.
